(** * F1 2018 terminal dashboard: the aggregation and rendering engine

    A shallow embedding of [src/main.py]: the three gauge routines
    ([draw_rpm_bar], [draw_accel_bar], [draw_brake_bar]), the panel renderer
    ([draw_telemetry_box]) and the packet loop of [print_telemetry].

    - Python [int] is [Z]; the player car index (an unsigned byte of the
      packet header) is [nat], so that it indexes lists and keys the caches.
    - Python [float] is IEEE 754 binary64, which is exactly the kernel's
      primitive [float]: [a / b] on two integers below [2^53] is the
      correctly rounded quotient, [float * int] is the correctly rounded
      product, and [int(f)] truncates towards zero.
    - The three caches [motion_data], [status_data] and [car_setup_data] are
      dictionaries keyed by car index: [gmap nat _].
    - The dictionary [data] has a fixed set of string keys, each of which is
      either present or absent: a record of options.
    - The curses library is an abstract drawing surface: every call made on
      it is appended to a log, and no call on it fails. *)

From Stdlib Require Import ZArith QArith Qround Floats Uint63 Lia.
From stdpp Require Import gmap strings list.

Local Open Scope Z_scope.

(** ** Exceptions *)

Inductive exn :=
| IndexError
| AttributeError
| ZeroDivisionError
| ValueError
| OverflowError.

(** ** Python arithmetic on floats *)

Module Py.

(** [float(z)] for an integer of magnitude below [2^63]; exact below [2^53]. *)
Definition float_of_int (z : Z) : float :=
  match z with
  | Z0 => PrimFloat.zero
  | Zpos _ => PrimFloat.of_uint63 (Uint63.of_Z z)
  | Zneg p => PrimFloat.opp (PrimFloat.of_uint63 (Uint63.of_Z (Zpos p)))
  end.

(** [a / b] on two integers: true division, [ZeroDivisionError] on [b = 0]. *)
Definition truediv (a b : Z) : exn + float :=
  if b =? 0 then inl ZeroDivisionError
  else inr (PrimFloat.div (float_of_int a) (float_of_int b)).

(** [f * n] for a float and an integer. *)
Definition mul_int (f : float) (n : Z) : float :=
  PrimFloat.mul f (float_of_int n).

(** [int(f)]: truncation towards zero; [ValueError] on a value that is not a
    number and [OverflowError] on an infinity. *)
Definition int (f : float) : exn + Z :=
  match Prim2SF f with
  | S754_zero _ => inr 0
  | S754_finite s m e =>
      let a := if 0 <=? e then Zpos m * 2 ^ e else Zpos m / 2 ^ (- e) in
      inr (if s then - a else a)
  | S754_infinity _ => inl OverflowError
  | S754_nan => inl ValueError
  end.

End Py.

(** [int((value / scale) * cells)], the fill count shared by the three gauges. *)
Definition bar_fill_of (value scale cells : Z) : exn + Z :=
  match Py.truediv value scale with
  | inl e => inl e
  | inr q => Py.int (Py.mul_int q cells)
  end.

(** ** The drawing surface

    A window is known by its identity and its size; [getmaxyx] is the pair
    [(height, width)], as in curses. *)

Inductive win_id := Stdscr | TelemetryWin.

Record window := Window { win : win_id; getmaxyx : Z * Z }.

Inductive attr := color_pair (n : Z).

(** A number as Python prints it: an [int] or a [float]. *)
Inductive num := NInt (z : Z) | NFloat (f : float).

(** The pieces of an f-string: literal text, a formatted number, and a number
    rounded by [round(v, ndigits)] before it is formatted. *)
Inductive piece :=
| Lit (s : string)
| Fmt (v : num)
| FmtRound (v : num) (ndigits : Z).

Inductive colour := COLOR_BLACK | COLOR_WHITE | COLOR_GREEN | COLOR_RED
                  | COLOR_MAGENTA | COLOR_YELLOW.

Inductive call :=
| clear (w : win_id)
| addstr (w : win_id) (y x : Z) (s : list piece) (a : attr)
| newwin (nlines ncols begin_y begin_x : Z)
| box (w : win_id)
| refresh (w : win_id)
| curs_set (visibility : Z)
| nodelay (w : win_id) (flag : bool)
| timeout (w : win_id) (delay : Z)
| start_color
| init_pair (n : Z) (fg bg : colour).

(** ** Drawing code: a log of calls, then an exception or a value *)

Record M (A : Type) := Run { log : list call; outcome : exn + A }.
Arguments Run {A} log outcome.
Arguments log {A} m.
Arguments outcome {A} m.

#[export] Instance M_ret : MRet M := fun A a => Run [] (inr a).

#[export] Instance M_bind : MBind M := fun A B k m =>
  match m with
  | Run l (inl e) => Run l (inl e)
  | Run l (inr a) => match k a with Run l' r => Run (l ++ l') r end
  end.

Definition emit (c : call) : M unit := Run [c] (inr tt).

Definition raise {A} (e : exn) : M A := Run [] (inl e).

Definition lift {A} (r : exn + A) : M A := Run [] r.

(** [for a in l: body(a)] *)
Fixpoint for_each {A} (l : list A) (body : A -> M unit) : M unit :=
  match l with
  | [] => mret tt
  | a :: l => body a;; for_each l body
  end.

(** [range(n)] and [enumerate(l)] *)
Definition range (n : Z) : list Z := seqZ 0 n.

Definition enumerate {A} (l : list A) : list (nat * A) :=
  zip (seq 0 (length l)) l.

(** ** The gauges *)

(** The [if rpm >= 12000 / elif rpm >= 10000 / else] of [draw_rpm_bar]. *)
Definition rpm_color (rpm : Z) : attr :=
  if 12000 <=? rpm then color_pair 4
  else if 10000 <=? rpm then color_pair 3
  else color_pair 2.

Definition draw_rpm_bar (w : window) (y x rpm max_rpm : Z) : M unit :=
  let bar_length := 30 in
  bar_fill ← lift (bar_fill_of rpm max_rpm bar_length);
  let color := rpm_color rpm in
  emit (addstr (win w) y x [Lit "["] (color_pair 1));;
  for_each (range bar_length) (fun i =>
    if i <? bar_fill
    then emit (addstr (win w) y (x + 1 + i) [Lit "|"] color)
    else emit (addstr (win w) y (x + 1 + i) [Lit " "] color));;
  emit (addstr (win w) y (x + 1 + bar_length) [Lit "]"] (color_pair 1));;
  emit (addstr (win w) y (x + 1 + bar_length + 2)
          [Fmt (NInt rpm); Lit " RPM"] (color_pair 1)).

Definition draw_brake_bar (w : window) (y x brake : Z) : M unit :=
  let bar_height := 10 in
  let bar_width := 2 in
  bar_fill ← lift (bar_fill_of brake 100 bar_height);
  let '(height, width) := getmaxyx w in
  if (height <=? y + bar_height) || (width <=? x + bar_width) then mret tt
  else
    emit (addstr (win w) y x [Lit "Brake:"] (color_pair 1));;
    for_each (range bar_height) (fun i =>
      if i <? bar_fill
      then emit (addstr (win w) (y + bar_height - i - 1) (x + 7) [Lit "|"] (color_pair 3))
      else emit (addstr (win w) (y + bar_height - i - 1) (x + 7) [Lit " "] (color_pair 3))).

Definition draw_accel_bar (w : window) (y x throttle : Z) : M unit :=
  let bar_height := 10 in
  let bar_width := 2 in
  bar_fill ← lift (bar_fill_of throttle 100 bar_height);
  let '(height, width) := getmaxyx w in
  if (height <=? y + bar_height) || (width <=? x + bar_width) then mret tt
  else
    emit (addstr (win w) y x [Lit "Throttle:"] (color_pair 1));;
    for_each (range bar_height) (fun i =>
      if i <? bar_fill
      then emit (addstr (win w) (y + bar_height - i - 1) (x + 10) [Lit "|"] (color_pair 2))
      else emit (addstr (win w) (y + bar_height - i - 1) (x + 10) [Lit " "] (color_pair 2))).

(** ** The snapshot dictionary [data]

    Every key is present or absent; [data.get(key, d)] is [default d]. *)

Record Data := mkData {
  engine_speed : option Z;
  engine_rpm : option Z;
  gear : option Z;
  max_rpm : option Z;
  tire_temperatures : option (list Z);
  throttle : option Z;
  brake : option Z;
  fuel : option num;
  g_force : option float;
  tire_wear : option (list Z)
}.

(** [data = {}] *)
Definition empty_data : Data :=
  mkData None None None None None None None None None None.

(** ** The panel *)

Definition tire_labels : list string := ["RL"; "RR"; "FL"; "FR"]%string.

(** [l[i]] on a list or a ctypes array, for an index that is not negative. *)
Definition getitem {A} (l : list A) (i : nat) : exn + A :=
  match l !! i with
  | Some a => inr a
  | None => inl IndexError
  end.

(** The conditional expressions that colour a temperature and a wear line. *)
Definition temp_color (temp : Z) : attr :=
  if temp <=? 150 then color_pair 2
  else if temp <=? 250 then color_pair 5
  else color_pair 3.

Definition wear_color (damage : Z) : attr :=
  if 75 <? damage then color_pair 3
  else if 50 <? damage then color_pair 5
  else color_pair 2.

(** [curses.newwin(nlines, ncols, begin_y, begin_x)] *)
Definition curses_newwin (nlines ncols begin_y begin_x : Z) : M window :=
  emit (newwin nlines ncols begin_y begin_x);;
  mret (Window TelemetryWin (nlines, ncols)).

Definition too_small_notice : list piece :=
  [Lit "Terminal too small. Please resize and try again."].

Definition draw_telemetry_box (stdscr : window) (data : Data) : M bool :=
  emit (clear (win stdscr));;
  let '(height, width) := getmaxyx stdscr in
  let min_width := 75 in
  let min_height := 15 in
  if (width <? min_width) || (height <? min_height) then
    emit (addstr (win stdscr) 0 0 too_small_notice (color_pair 1));;
    emit (refresh (win stdscr));;
    mret false
  else
    let box_width := 75 in
    let box_height := 15 in
    telemetry_win ← curses_newwin box_height box_width 1 2;
    emit (box (win telemetry_win));;
    let engine_speed := default 0 (engine_speed data) in
    let gear := default 0 (gear data) in
    let engine_rpm := default 0 (engine_rpm data) in
    let max_rpm := default 15000 (max_rpm data) in
    let tire_temperatures := default [0; 0; 0; 0] (tire_temperatures data) in
    let tire_wear := default [0; 0; 0; 0] (tire_wear data) in
    let throttle := default 0 (throttle data) in
    let g_force := default (NInt 0) (NFloat <$> g_force data) in
    let brake := default 0 (brake data) in
    let fuel := default (NInt 0) (fuel data) in
    emit (addstr (win telemetry_win) 1 2
            [Lit "Speed: "; Fmt (NInt engine_speed); Lit " km/h"] (color_pair 1));;
    emit (addstr (win telemetry_win) 2 2
            [Lit "Gear: "; Fmt (NInt gear)] (color_pair 1));;
    draw_rpm_bar telemetry_win 3 2 engine_rpm max_rpm;;
    emit (addstr (win telemetry_win) 6 2
            [Lit "G-Force: "; Fmt g_force] (color_pair 1));;
    emit (addstr (win telemetry_win) 7 2
            [Lit "Fuel: "; FmtRound fuel 2; Lit "%"] (color_pair 1));;
    for_each (enumerate tire_temperatures) (fun '(i, temp) =>
      let color := temp_color temp in
      label ← lift (getitem tire_labels i);
      emit (addstr (win telemetry_win) (9 + Z.of_nat i) 2
              [Lit label; Lit " Temp: "; Fmt (NInt temp); Lit "°C"] color));;
    for_each (enumerate tire_wear) (fun '(i, damage) =>
      let color := wear_color damage in
      label ← lift (getitem tire_labels i);
      emit (addstr (win telemetry_win) (9 + Z.of_nat i) 30
              [Lit label; Lit " Wear: "; Fmt (NInt damage); Lit "%"] color));;
    draw_accel_bar telemetry_win 3 50 throttle;;
    draw_brake_bar telemetry_win 3 63 brake;;
    emit (refresh (win telemetry_win));;
    mret true.

(** ** Packets

    The telemetry source is outside the repository: a packet is the record
    its decoder produces, with the attributes [print_telemetry] reads.
    Reading an attribute that the packet does not have raises
    [AttributeError]; indexing a per-car array out of range raises
    [IndexError]. *)

Record PacketHeader := { m_playerCarIndex : nat }.

Record CarTelemetryData := {
  m_speed : Z;
  m_engineRPM : Z;
  m_gear : Z;
  m_tyresSurfaceTemperature : list Z;
  m_throttle : Z;
  m_brake : Z
}.

Record CarMotionData := { m_gForceLateral : float }.

Record CarStatusData := { m_tyresDamage : list Z }.

Record CarSetupData := { m_fuelLoad : float }.

Inductive Packet :=
| PacketCarTelemetryData (hd : PacketHeader) (cars : list CarTelemetryData)
| PacketMotionData (hd : PacketHeader) (cars : list CarMotionData)
| PacketCarStatusData (hd : PacketHeader) (cars : list CarStatusData)
| PacketCarSetupData (hd : PacketHeader) (cars : list CarSetupData)
| PacketOther (hd : PacketHeader).

Definition header (p : Packet) : PacketHeader :=
  match p with
  | PacketCarTelemetryData hd _ | PacketMotionData hd _
  | PacketCarStatusData hd _ | PacketCarSetupData hd _ | PacketOther hd => hd
  end.

Definition cars_telemetry_data (p : Packet) : exn + list CarTelemetryData :=
  match p with PacketCarTelemetryData _ cars => inr cars | _ => inl AttributeError end.

Definition cars_motion_data (p : Packet) : exn + list CarMotionData :=
  match p with PacketMotionData _ cars => inr cars | _ => inl AttributeError end.

Definition cars_status_data (p : Packet) : exn + list CarStatusData :=
  match p with PacketCarStatusData _ cars => inr cars | _ => inl AttributeError end.

Definition cars_setup_data (p : Packet) : exn + list CarSetupData :=
  match p with PacketCarSetupData _ cars => inr cars | _ => inl AttributeError end.

(** ** The local state of [print_telemetry] *)

Record State := mkState {
  data : Data;
  player_car_index : option nat;
  motion_data : gmap nat CarMotionData;
  status_data : gmap nat CarStatusData;
  car_setup_data : gmap nat CarSetupData
}.

Definition initial_state : State := mkState empty_data None ∅ ∅ ∅.

(** Code that draws nothing runs in the plain error monad. *)
#[export] Instance exn_ret : MRet (sum exn) := fun A a => inr a.

#[export] Instance exn_bind : MBind (sum exn) := fun A B k r =>
  match r with
  | inl e => inl e
  | inr a => k a
  end.

(** [data["g_force"] = v], [data["tire_wear"] = v], [data["fuel"] = v] *)
Definition set_g_force (v : float) (d : Data) : Data :=
  mkData (engine_speed d) (engine_rpm d) (gear d) (max_rpm d)
         (tire_temperatures d) (throttle d) (brake d) (fuel d)
         (Some v) (tire_wear d).

Definition set_tire_wear (v : list Z) (d : Data) : Data :=
  mkData (engine_speed d) (engine_rpm d) (gear d) (max_rpm d)
         (tire_temperatures d) (throttle d) (brake d) (fuel d)
         (g_force d) (Some v).

Definition set_fuel (v : num) (d : Data) : Data :=
  mkData (engine_speed d) (engine_rpm d) (gear d) (max_rpm d)
         (tire_temperatures d) (throttle d) (brake d) (Some v)
         (g_force d) (tire_wear d).

(** [if key in cache: update(cache[key])] *)
Definition if_in {K V} `{Countable K} (key : K) (cache : gmap K V)
    (update : V -> Data -> Data) (d : Data) : Data :=
  match cache !! key with
  | Some v => update v d
  | None => d
  end.

(** The branch [packet_id == 6] up to the call of [draw_telemetry_box]: the
    tracked index is taken from the header, [data] is built afresh with the
    fuel of the previous [data], and the three caches are consulted. The
    index just assigned is an integer, so the test [is not None] holds. *)
Definition car_telemetry (s : State) (packet : Packet) : exn + State :=
  let idx := m_playerCarIndex (header packet) in
  cars ← cars_telemetry_data packet;
  t ← getitem cars idx;
  let fuel0 := default (NInt 0) (fuel (data s)) in
  let d := mkData (Some (m_speed t)) (Some (m_engineRPM t)) (Some (m_gear t))
                  (Some 15000) (Some (m_tyresSurfaceTemperature t))
                  (Some (m_throttle t)) (Some (m_brake t)) (Some fuel0)
                  None None in
  let d := if_in idx (motion_data s) (fun m => set_g_force (m_gForceLateral m)) d in
  let d := if_in idx (status_data s) (fun c => set_tire_wear (m_tyresDamage c)) d in
  let d := if_in idx (car_setup_data s) (fun c => set_fuel (NFloat (m_fuelLoad c))) d in
  mret (mkState d (Some idx) (motion_data s) (status_data s) (car_setup_data s)).

(** The branches [packet_id == 0], [== 7] and [== 5]. *)
Definition motion (s : State) (packet : Packet) : exn + State :=
  match player_car_index s with
  | Some idx =>
      cars ← cars_motion_data packet;
      packet_motion_data ← getitem cars idx;
      mret (mkState (data s) (player_car_index s)
              (<[idx := packet_motion_data]> (motion_data s))
              (status_data s) (car_setup_data s))
  | None => mret s
  end.

Definition car_status (s : State) (packet : Packet) : exn + State :=
  match player_car_index s with
  | Some idx =>
      cars ← cars_status_data packet;
      packet_car_status_data ← getitem cars idx;
      mret (mkState (data s) (player_car_index s) (motion_data s)
              (<[idx := packet_car_status_data]> (status_data s))
              (car_setup_data s))
  | None => mret s
  end.

Definition car_setup (s : State) (packet : Packet) : exn + State :=
  match player_car_index s with
  | Some idx =>
      cars ← cars_setup_data packet;
      packet_car_setup_data ← getitem cars idx;
      mret (mkState (data s) (player_car_index s) (motion_data s)
              (status_data s)
              (<[idx := packet_car_setup_data]> (car_setup_data s)))
  | None => mret s
  end.

(** The state change of one turn of the [for] loop, and the snapshot handed
    to [draw_telemetry_box] when there is one. *)
Definition ingest (s : State) (packet_id : Z) (packet : Packet)
    : exn + (State * option Data) :=
  if packet_id =? 6 then s' ← car_telemetry s packet; mret (s', Some (data s'))
  else if packet_id =? 0 then s' ← motion s packet; mret (s', None)
  else if packet_id =? 7 then s' ← car_status s packet; mret (s', None)
  else if packet_id =? 5 then s' ← car_setup s packet; mret (s', None)
  else mret (s, None).

(** ** The loops of [print_telemetry]

    One item of [get_telemetry()], with the size the terminal has when the
    item is handled. *)
Record arrival := Arrival {
  screen : Z * Z;
  packet_id : Z;
  packet : Packet
}.

(** One turn of the [for] loop: [None] when [print_telemetry] returns. *)
Definition for_body (s : State) (a : arrival) : M (option State) :=
  r ← lift (ingest s (packet_id a) (packet a));
  match r.2 with
  | Some d =>
      ok ← draw_telemetry_box (Window Stdscr (screen a)) d;
      mret (if ok : bool then Some r.1 else None)
  | None => mret (Some r.1)
  end.

Fixpoint for_packets (s : State) (l : list arrival) : M (option State) :=
  match l with
  | [] => mret (Some s)
  | a :: l =>
      r ← for_body s a;
      match r with
      | Some s' => for_packets s' l
      | None => mret None
      end
  end.

(** [ord("q")] *)
Definition ord_q : Z := 113.

(** The [while True] loop over the ticks of a finite trace: each tick is the
    items one call of [get_telemetry()] yields and the key [getch()] returns
    after them. [Some s] when the trace ends with the loop still running. *)
Fixpoint while_true (s : State) (ticks : list (list arrival * Z)) : M (option State) :=
  match ticks with
  | [] => mret (Some s)
  | (arrivals, key) :: ticks =>
      r ← for_packets s arrivals;
      match r with
      | None => mret None
      | Some s' =>
          emit (refresh Stdscr);;
          if key =? ord_q then mret None else while_true s' ticks
      end
  end.

Definition print_telemetry (ticks : list (list arrival * Z)) : M (option State) :=
  emit (curs_set 0);;
  emit (nodelay Stdscr true);;
  emit (timeout Stdscr 500);;
  emit start_color;;
  emit (init_pair 1 COLOR_WHITE COLOR_BLACK);;
  emit (init_pair 2 COLOR_GREEN COLOR_BLACK);;
  emit (init_pair 3 COLOR_RED COLOR_BLACK);;
  emit (init_pair 4 COLOR_MAGENTA COLOR_BLACK);;
  emit (init_pair 5 COLOR_YELLOW COLOR_BLACK);;
  while_true initial_state ticks.

(** ** Reading a log

    One cell of a gauge: filled below the fill count, blank from it on. *)
Definition bar_cell (w : win_id) (y x fill : Z) (color : attr) (i : Z) : call :=
  addstr w y (x + 1 + i) [Lit (if i <? fill then "|"%string else " "%string)] color.

(** What [draw_rpm_bar] writes once the fill count is known. *)
Definition rpm_bar_calls (w : win_id) (y x rpm fill : Z) : list call :=
  addstr w y x [Lit "["] (color_pair 1)
  :: map (bar_cell w y x fill (rpm_color rpm)) (range 30)
  ++ [addstr w y (x + 1 + 30) [Lit "]"] (color_pair 1);
      addstr w y (x + 1 + 30 + 2) [Fmt (NInt rpm); Lit " RPM"] (color_pair 1)].

(** The panel window, as [curses.newwin(15, 75, 1, 2)] makes it. *)
Definition panel : window := Window TelemetryWin (15, 75).

(** The filled cells of a log: the calls that write the bar character. *)
Definition is_fill (c : call) : bool :=
  match c with
  | addstr _ _ _ [Lit s] _ => String.eqb s "|"
  | _ => false
  end.

Definition filled_cells (l : list call) : nat := length (List.filter is_fill l).

(** The column and the colour of every bar character a log writes. *)
Definition fill_writes (l : list call) : list (Z * attr) :=
  omap (fun c => match c with
                 | addstr _ _ x _ a => if is_fill c then Some (x, a) else None
                 | _ => None
                 end) l.

(** The fill count as the specification words it, in exact arithmetic:
    [floor(rpm / maxRpm * 30)]. *)
Definition spec_fill (rpm maxRpm : Z) : Z :=
  Qfloor (inject_Z rpm / inject_Z maxRpm * inject_Z 30)%Q.

(** The tiers of the specification and the colour pair each gauge draws
    them with: magenta, red and green on the rotation-rate gauge; red,
    yellow and green on the wheel lines. *)
Inductive tier := normal | warning | critical.

Definition rpm_tier_attr (t : tier) : attr :=
  match t with
  | critical => color_pair 4
  | warning => color_pair 3
  | normal => color_pair 2
  end.

Definition wheel_tier_attr (t : tier) : attr :=
  match t with
  | critical => color_pair 3
  | warning => color_pair 5
  | normal => color_pair 2
  end.

(** [f] holds on the [n] integers from [m] on. *)
Fixpoint forall_range (f : Z -> bool) (m : Z) (n : nat) : bool :=
  match n with
  | O => true
  | S n => f m && forall_range f (m + 1) n
  end.

(** Exhaustive checks of the double-precision fill count on a range. *)
Definition fill_is_floor (rpm : Z) : bool :=
  match bar_fill_of rpm 15000 30 with
  | inr fill => fill =? spec_fill rpm 15000
  | inl _ => false
  end.

Definition fill_is_full (rpm : Z) : bool :=
  match bar_fill_of rpm 15000 30 with
  | inr fill => (30 <=? fill) && ((rpm <? 15500) || (30 <? fill))
  | inl _ => false
  end.

(** ** Reading the log of the panel *)

(** One cell of a vertical gauge of ten cells, counted from the bottom. *)
Definition vbar_cell (w : win_id) (y x fill : Z) (color : attr) (i : Z) : call :=
  addstr w (y + 10 - i - 1) x [Lit (if i <? fill then "|"%string else " "%string)] color.

(** What a vertical gauge writes in a window of the given size. *)
Definition vbar_calls (w : window) (y x : Z) (label : string) (offset fill : Z)
    (color : attr) : list call :=
  if (fst (getmaxyx w) <=? y + 10) || (snd (getmaxyx w) <=? x + 2) then []
  else addstr (win w) y x [Lit label] (color_pair 1)
       :: map (vbar_cell (win w) y (x + offset) fill color) (range 10).

(** The temperature line and the wear line of wheel [i]. *)
Definition temp_line (it : nat * Z) : call :=
  addstr TelemetryWin (9 + Z.of_nat it.1) 2
    [Lit (default EmptyString (tire_labels !! it.1)); Lit " Temp: ";
     Fmt (NInt it.2); Lit "°C"] (temp_color it.2).

Definition wear_line (it : nat * Z) : call :=
  addstr TelemetryWin (9 + Z.of_nat it.1) 30
    [Lit (default EmptyString (tire_labels !! it.1)); Lit " Wear: ";
     Fmt (NInt it.2); Lit "%"] (wear_color it.2).

(** Everything [draw_telemetry_box] does on a surface that is large enough,
    once the three fill counts are known. *)
Definition panel_calls (d : Data) (rpm_fill throttle_fill brake_fill : Z) : list call :=
  [clear Stdscr; newwin 15 75 1 2; box TelemetryWin;
   addstr TelemetryWin 1 2
     [Lit "Speed: "; Fmt (NInt (default 0 (engine_speed d))); Lit " km/h"] (color_pair 1);
   addstr TelemetryWin 2 2
     [Lit "Gear: "; Fmt (NInt (default 0 (gear d)))] (color_pair 1)]
  ++ rpm_bar_calls TelemetryWin 3 2 (default 0 (engine_rpm d)) rpm_fill
  ++ [addstr TelemetryWin 6 2
        [Lit "G-Force: "; Fmt (default (NInt 0) (NFloat <$> g_force d))] (color_pair 1);
      addstr TelemetryWin 7 2
        [Lit "Fuel: "; FmtRound (default (NInt 0) (fuel d)) 2; Lit "%"] (color_pair 1)]
  ++ map temp_line (enumerate (default [0; 0; 0; 0] (tire_temperatures d)))
  ++ map wear_line (enumerate (default [0; 0; 0; 0] (tire_wear d)))
  ++ vbar_calls panel 3 50 "Throttle:" 10 throttle_fill (color_pair 2)
  ++ vbar_calls panel 3 63 "Brake:" 7 brake_fill (color_pair 3)
  ++ [refresh TelemetryWin].

(** What [draw_telemetry_box] does on a surface that is too small. *)
Definition too_small_calls : list call :=
  [clear Stdscr; addstr Stdscr 0 0 too_small_notice (color_pair 1); refresh Stdscr].

(** A snapshot whose numbers fit the fields of the packets they come from
    (an unsigned 16-bit rotation rate, unsigned bytes for throttle and brake,
    at most four wheels) and whose [max_rpm] is the constant 15000. *)
Definition snapshot_ok (d : Data) : Prop :=
  0 <= default 0 (engine_rpm d) <= 65535
  /\ default 15000 (max_rpm d) = 15000
  /\ 0 <= default 0 (throttle d) <= 255
  /\ 0 <= default 0 (brake d) <= 255
  /\ (length (default [0; 0; 0; 0]%Z (tire_temperatures d)) <= 4)%nat
  /\ (length (default [0; 0; 0; 0]%Z (tire_wear d)) <= 4)%nat.

Definition vfill_succeeds (v : Z) : bool :=
  match bar_fill_of v 100 10 with
  | inr _ => true
  | inl _ => false
  end.

(** [m] runs to the end: it logs [l] and returns [a]. *)
Definition runs {A} (m : M A) (l : list call) (a : A) : Prop := m = Run l (inr a).

(** A call that writes text on the main screen. *)
Definition writes_on_stdscr (c : call) : bool :=
  match c with
  | addstr Stdscr _ _ _ _ => true
  | _ => false
  end.

(** ** A run of the aggregation alone

    The state changes of a sequence of items and the snapshots they hand to
    the renderer, in order. *)
Fixpoint ingest_all (s : State) (evs : list (Z * Packet))
    : exn + (State * list Data) :=
  match evs with
  | [] => mret (s, [])
  | ev :: evs =>
      r ← ingest s ev.1 ev.2;
      r' ← ingest_all r.1 evs;
      mret (r'.1, option_list r.2 ++ r'.2)
  end.

Definition snapshots (r : exn + (State * list Data)) : list Data :=
  match r with
  | inr (_, l) => l
  | inl _ => []
  end.

(** ** Sample packets

    Two cars; the header names the player's car. *)
Definition car0 : CarTelemetryData :=
  Build_CarTelemetryData 200 11000 5 [90; 91; 92; 93] 100 0.

Definition car1 : CarTelemetryData :=
  Build_CarTelemetryData 100 9000 3 [80; 81; 82; 83] 50 10.

Definition sample_telemetry (player : nat) : Packet :=
  PacketCarTelemetryData {| m_playerCarIndex := player |} [car0; car1].

Definition sample_setup (fuel0 fuel1 : Z) : Packet :=
  PacketCarSetupData {| m_playerCarIndex := 0 |}
    [Build_CarSetupData (Py.float_of_int fuel0);
     Build_CarSetupData (Py.float_of_int fuel1)].

Definition sample_motion (g0 g1 : Z) : Packet :=
  PacketMotionData {| m_playerCarIndex := 0 |}
    [Build_CarMotionData (Py.float_of_int g0);
     Build_CarMotionData (Py.float_of_int g1)].

Definition sample_status : Packet :=
  PacketCarStatusData {| m_playerCarIndex := 0 |}
    [Build_CarStatusData [10; 20; 60; 80]; Build_CarStatusData [1; 2; 3; 4]].

(** The state after the first telemetry packet for car [player]. *)
Definition after_first_telemetry (player : nat) : State :=
  match car_telemetry initial_state (sample_telemetry player) with
  | inr s => s
  | inl _ => initial_state
  end.

(** The state a run of the aggregation ends in. *)
Definition state_of (r : exn + (State * list Data)) : State :=
  match r with
  | inr (s, _) => s
  | inl _ => initial_state
  end.

(** The state after a setup packet is stored for the tracked car [idx]. *)
Definition with_setup (s : State) (idx : nat) (c : CarSetupData) : State :=
  mkState (data s) (player_car_index s) (motion_data s) (status_data s)
          (<[idx := c]> (car_setup_data s)).

Definition with_motion (s : State) (idx : nat) (m : CarMotionData) : State :=
  mkState (data s) (player_car_index s) (<[idx := m]> (motion_data s))
          (status_data s) (car_setup_data s).

Definition with_status (s : State) (idx : nat) (c : CarStatusData) : State :=
  mkState (data s) (player_car_index s) (motion_data s)
          (<[idx := c]> (status_data s)) (car_setup_data s).

(** Car 0 is tracked and a setup packet has stored a fuel load of 42 for it:
    the state before, and the state after, the telemetry packet that shows
    that fuel. *)
Definition fuelled_before : State :=
  state_of (ingest_all initial_state
              [(6, sample_telemetry 0); (5, sample_setup 42 7)]).

Definition fuelled : State :=
  state_of (ingest_all fuelled_before [(6, sample_telemetry 0)]).

(** ** More ways to read a log *)

(** The rows at which a log writes the bar character. *)
Definition fill_rows (l : list call) : list Z :=
  omap (fun c => match c with
                 | addstr _ y _ _ _ => if is_fill c then Some y else None
                 | _ => None
                 end) l.

(** The row and the column at which each text of a log starts. *)
Definition writes (l : list call) : list (Z * Z) :=
  omap (fun c => match c with
                 | addstr _ y x _ _ => Some (y, x)
                 | _ => None
                 end) l.

(** The fill count of a rotation rate when it is computed without an error,
    and zero otherwise. *)
Definition rpm_fill (rpm : Z) : Z :=
  match bar_fill_of rpm 15000 30 with
  | inr fill => fill
  | inl _ => 0
  end.

(** More exhaustive checks of the double-precision fill counts. *)
Definition shown_is_floor (rpm : Z) : bool :=
  match bar_fill_of rpm 15000 30 with
  | inr fill => (0 <=? fill) && (Z.min 30 fill =? Z.min 30 (rpm / 500))
  | inl _ => false
  end.

Definition fill_steps_up (rpm : Z) : bool :=
  match bar_fill_of rpm 15000 30, bar_fill_of (rpm + 1) 15000 30 with
  | inr a, inr b => a <=? b
  | _, _ => false
  end.

Definition vfill_is_floor (v : Z) : bool :=
  match bar_fill_of v 100 10 with
  | inr fill => fill =? v / 10
  | inl _ => false
  end.

(** A text that starts inside the border of the 15 by 75 panel, or at the
    origin of the main screen. *)
Definition inside (c : call) : Prop :=
  match c with
  | addstr TelemetryWin y x _ _ => 1 <= y <= 12 /\ 2 <= x <= 70
  | addstr Stdscr y x _ _ => y = 0 /\ x = 0
  | _ => True
  end.

(** A text in one of the five colour pairs that [print_telemetry] sets up. *)
Definition known_pair (c : call) : Prop :=
  match c with
  | addstr _ _ _ _ (color_pair n) => 1 <= n <= 5
  | _ => True
  end.

Definition tidy (c : call) : Prop := inside c /\ known_pair c.

(** The calls that set the terminal up, at the start of [print_telemetry]. *)
Definition setup_calls : list call :=
  [curs_set 0; nodelay Stdscr true; timeout Stdscr 500; start_color;
   init_pair 1 COLOR_WHITE COLOR_BLACK; init_pair 2 COLOR_GREEN COLOR_BLACK;
   init_pair 3 COLOR_RED COLOR_BLACK; init_pair 4 COLOR_MAGENTA COLOR_BLACK;
   init_pair 5 COLOR_YELLOW COLOR_BLACK].

(** ** Reading a trace *)

(** The item of [get_telemetry()] an arrival carries. *)
Definition event_of (a : arrival) : Z * Packet := (packet_id a, packet a).

Definition is_telemetry (a : arrival) : bool := packet_id a =? 6.

(** The terminal is too small for the panel when the item is handled. *)
Definition too_small (a : arrival) : Prop :=
  (screen a).2 < 75 \/ (screen a).1 < 15.

(** What is drawn for the snapshots [ds], each on the terminal of the
    telemetry item it was built from. *)
Definition renders (l : list arrival) (ds : list Data) : list call :=
  concat (zip_with (fun a d => log (draw_telemetry_box (Window Stdscr (screen a)) d))
                   (List.filter is_telemetry l) ds).

(** Some cache has an entry for car [j]. *)
Definition cached (s : State) (j : nat) : Prop :=
  is_Some (motion_data s !! j) \/ is_Some (status_data s !! j)
  \/ is_Some (car_setup_data s !! j).

(** ** Streams of a decoder for [n] cars

    The fields of a car fit the C types of the packet: an unsigned 16-bit
    rotation rate, unsigned bytes for throttle and brake, four wheels. *)
Definition fits_telemetry (t : CarTelemetryData) : Prop :=
  0 <= m_engineRPM t <= 65535
  /\ 0 <= m_throttle t <= 255
  /\ 0 <= m_brake t <= 255
  /\ length (m_tyresSurfaceTemperature t) = 4%nat.

Definition fits_status (c : CarStatusData) : Prop :=
  length (m_tyresDamage c) = 4%nat.

(** An item has the packet its kind announces, with one entry for each of
    the [n] cars, the player's car among them. *)
Definition well_formed (n : nat) (ev : Z * Packet) : Prop :=
  (m_playerCarIndex (header ev.2) < n)%nat
  /\ match ev.2 with
     | PacketCarTelemetryData _ cars =>
         ev.1 = 6 /\ length cars = n /\ Forall fits_telemetry cars
     | PacketMotionData _ cars => ev.1 = 0 /\ length cars = n
     | PacketCarStatusData _ cars =>
         ev.1 = 7 /\ length cars = n /\ Forall fits_status cars
     | PacketCarSetupData _ cars => ev.1 = 5 /\ length cars = n
     | PacketOther _ => ev.1 <> 6 /\ ev.1 <> 0 /\ ev.1 <> 7 /\ ev.1 <> 5
     end.

(** What the loop keeps true on such a stream: the tracked car is one of
    the [n] cars and the cached wear lists have four entries. *)
Definition state_ok (n : nat) (s : State) : Prop :=
  (forall idx, player_car_index s = Some idx -> (idx < n)%nat)
  /\ (forall j c, status_data s !! j = Some c -> fits_status c).

(** An arrival of such a stream on a terminal that has room for the panel. *)
Definition arrival_ok (n : nat) (a : arrival) : Prop :=
  well_formed n (event_of a) /\ 75 <= (screen a).2 /\ 15 <= (screen a).1.

(** * Properties *)

(** ** The effect monad *)

Lemma bind_run {A B} (l : list call) (a : A) (k : A -> M B) :
  Run l (inr a) ≫= k = Run (l ++ log (k a)) (outcome (k a)).
Proof. unfold mbind, M_bind. by destruct (k a). Qed.

Lemma bind_raise {A B} (l : list call) (e : exn) (k : A -> M B) :
  Run l (inl e) ≫= k = Run l (inl e).
Proof. reflexivity. Qed.

Lemma bind_emit {B} (c : call) (k : unit -> M B) :
  emit c ≫= k = Run (c :: log (k tt)) (outcome (k tt)).
Proof. unfold emit. by rewrite bind_run. Qed.

(** A loop whose body is a single call on the surface logs one call per item. *)
Lemma for_each_emit {A} (g : A -> call) (body : A -> M unit) (l : list A) :
  (forall a, body a = emit (g a)) ->
  for_each l body = Run (map g l) (inr tt).
Proof.
  intros Hbody. induction l as [|a l IH]; [reflexivity|].
  cbn [for_each map]. rewrite Hbody, bind_emit, IH. reflexivity.
Qed.

(** A check that holds on a range holds at each integer of the range. *)
Lemma forall_range_spec (f : Z -> bool) (n : nat) (m z : Z) :
  forall_range f m n = true -> m <= z < m + Z.of_nat n -> f z = true.
Proof.
  revert m. induction n as [|n IH]; intros m Hall Hz; [lia|].
  cbn [forall_range] in Hall. apply andb_true_iff in Hall as [Hm Hrest].
  destruct (Z.eq_dec z m) as [->|Hne]; [done|].
  apply (IH (m + 1)); [done|lia].
Qed.

(** ** The rotation-rate gauge *)

Lemma draw_rpm_bar_run (w : window) (y x rpm max_rpm fill : Z) :
  bar_fill_of rpm max_rpm 30 = inr fill ->
  draw_rpm_bar w y x rpm max_rpm = Run (rpm_bar_calls (win w) y x rpm fill) (inr tt).
Proof.
  intros Hfill. unfold draw_rpm_bar, lift. rewrite Hfill, bind_run. cbn [app].
  rewrite bind_emit.
  rewrite (for_each_emit (bar_cell (win w) y x fill (rpm_color rpm))).
  2:{ intros i. unfold bar_cell. by destruct (i <? fill). }
  rewrite bind_run, !bind_emit. reflexivity.
Qed.

Lemma filled_cells_app (l1 l2 : list call) :
  filled_cells (l1 ++ l2) = (filled_cells l1 + filled_cells l2)%nat.
Proof. unfold filled_cells. by rewrite List.filter_app, length_app. Qed.

Lemma fill_writes_app (l1 l2 : list call) :
  fill_writes (l1 ++ l2) = fill_writes l1 ++ fill_writes l2.
Proof. apply omap_app. Qed.

Lemma filled_cells_bar (w : win_id) (y x fill : Z) (color : attr) (k : nat) :
  filled_cells (map (bar_cell w y x fill color) (seqZ 0 (Z.of_nat k)))
  = Z.to_nat (Z.min (Z.of_nat k) (Z.max 0 fill)).
Proof.
  induction k as [|k IH]; [rewrite seqZ_nil by lia; cbn; lia|].
  rewrite seqZ_S, map_app, filled_cells_app, IH. cbn [map].
  unfold filled_cells, bar_cell. cbn [List.filter is_fill].
  destruct (Z.ltb_spec (0 + Z.of_nat k) fill); cbn; lia.
Qed.

Lemma filled_cells_rpm_bar (w : win_id) (y x rpm fill : Z) :
  filled_cells (rpm_bar_calls w y x rpm fill) = Z.to_nat (Z.min 30 (Z.max 0 fill)).
Proof.
  unfold rpm_bar_calls, range.
  change (addstr w y x [Lit "["] (color_pair 1) :: ?l)
    with ([addstr w y x [Lit "["] (color_pair 1)] ++ l).
  rewrite !filled_cells_app.
  change 30 with (Z.of_nat 30) at 1. rewrite filled_cells_bar.
  cbn. lia.
Qed.

Lemma fill_writes_bar (w : win_id) (y x fill : Z) (color : attr) (l : list Z) :
  Forall (fun i => 0 <= i < 30) l ->
  Forall (fun ca => x + 1 <= ca.1 <= x + 30 /\ ca.2 = color)
         (fill_writes (map (bar_cell w y x fill color) l)).
Proof.
  induction 1 as [|i l Hi _ IH]; [constructor|].
  cbn [map fill_writes omap]. unfold bar_cell at 1. cbn [is_fill].
  destruct (i <? fill); cbn; [constructor; [cbn; split; [lia|done]|]|]; exact IH.
Qed.

Lemma fill_writes_rpm_bar (w : win_id) (y x rpm fill : Z) :
  Forall (fun ca => x + 1 <= ca.1 <= x + 30 /\ ca.2 = rpm_color rpm)
         (fill_writes (rpm_bar_calls w y x rpm fill)).
Proof.
  unfold rpm_bar_calls.
  change (addstr w y x [Lit "["] (color_pair 1) :: ?l)
    with ([addstr w y x [Lit "["] (color_pair 1)] ++ l).
  rewrite !fill_writes_app, !Forall_app. split_and!.
  - cbn. constructor.
  - apply fill_writes_bar, Forall_seqZ. lia.
  - cbn. constructor.
Qed.

(** The double-precision fill count on the whole range of an unsigned
    16-bit rotation rate, checked value by value. *)
Lemma fill_is_floor_low : forall_range fill_is_floor 0 (Z.to_nat 61500) = true.
Proof. vm_compute. reflexivity. Qed.

Lemma fill_is_floor_high : forall_range fill_is_floor 61501 (Z.to_nat 4035) = true.
Proof. vm_compute. reflexivity. Qed.

Lemma fill_is_full_from_max : forall_range fill_is_full 15000 (Z.to_nat 50536) = true.
Proof. vm_compute. reflexivity. Qed.

Lemma bar_fill_floor (rpm : Z) :
  0 <= rpm <= 65535 -> rpm <> 61500 ->
  bar_fill_of rpm 15000 30 = inr (spec_fill rpm 15000).
Proof.
  intros Hrange Hne.
  assert (fill_is_floor rpm = true) as Hcheck.
  { destruct (Z.lt_ge_cases rpm 61500).
    - apply (forall_range_spec _ _ _ _ fill_is_floor_low). lia.
    - apply (forall_range_spec _ _ _ _ fill_is_floor_high). lia. }
  unfold fill_is_floor in Hcheck.
  destruct (bar_fill_of rpm 15000 30) as [e|fill]; [discriminate|].
  apply Z.eqb_eq in Hcheck. by subst.
Qed.

Lemma bar_fill_full (rpm : Z) :
  15000 <= rpm <= 65535 ->
  exists fill, bar_fill_of rpm 15000 30 = inr fill /\ 30 <= fill
               /\ (15500 <= rpm -> 30 < fill).
Proof.
  intros Hrange.
  assert (fill_is_full rpm = true) as Hcheck.
  { apply (forall_range_spec _ _ _ _ fill_is_full_from_max). lia. }
  unfold fill_is_full in Hcheck.
  destruct (bar_fill_of rpm 15000 30) as [e|fill]; [discriminate|].
  exists fill. apply andb_true_iff in Hcheck as [H30 Hover].
  split_and!; [done|lia|].
  intros Hrpm. apply orb_true_iff in Hover as [Hlt|Hgt]; lia.
Qed.

(** C6, as the code has it. For every rotation rate an unsigned 16-bit field
    can hold, except 61500, and with [max_rpm = 15000], the fill count
    [int((rpm / max_rpm) * 30)] equals [floor(rpm / maxRpm * 30)]; a rate
    equal to [max_rpm] fills the thirty cells of the bar and a rate of zero
    fills none. *)
Theorem rpm_fill_is_floor_except_61500 :
  (forall rpm, 0 <= rpm <= 65535 -> rpm <> 61500 ->
     bar_fill_of rpm 15000 30 = inr (spec_fill rpm 15000))
  /\ (forall w y x, filled_cells (log (draw_rpm_bar w y x 15000 15000)) = 30%nat)
  /\ (forall w y x, filled_cells (log (draw_rpm_bar w y x 0 15000)) = 0%nat).
Proof.
  split_and!.
  - apply bar_fill_floor.
  - intros w y x.
    rewrite (draw_rpm_bar_run w y x 15000 15000 30) by (vm_compute; reflexivity).
    cbn [log]. by rewrite filled_cells_rpm_bar.
  - intros w y x.
    rewrite (draw_rpm_bar_run w y x 0 15000 0) by (vm_compute; reflexivity).
    cbn [log]. by rewrite filled_cells_rpm_bar.
Qed.

Lemma rpm_fill_is_floor_at_9000 :
  0 <= 9000 <= 65535 /\ 9000 <> 61500
  /\ bar_fill_of 9000 15000 30 = inr (spec_fill 9000 15000).
Proof.
  split_and!; [lia|lia|lia|].
  apply (proj1 rpm_fill_is_floor_except_61500 9000); lia.
Defined.

(** C6 as stated fails at [rpm = 61500]: the quotient [61500 / 15000] is the
    double nearest to 4.1, which lies below 4.1; its product with 30 rounds
    to the double just below 123, and [int] truncates it to 122, while
    [floor(61500 / 15000 * 30)] is 123. *)
Lemma rpm_fill_61500_is_not_floor :
  0 <= 61500
  /\ bar_fill_of 61500 15000 30 = inr 122
  /\ spec_fill 61500 15000 = 123
  /\ bar_fill_of 61500 15000 30 <> inr (spec_fill 61500 15000).
Proof.
  split_and!; [lia|vm_compute; reflexivity|vm_compute; reflexivity|].
  vm_compute. discriminate.
Qed.

(** C3, as the code has it. For every rotation rate from [max_rpm = 15000]
    up to the largest value of an unsigned 16-bit field, the fill count is
    computed without a clamp (it is at least 30, and more than 30 from 15500
    on), but the loop of [draw_rpm_bar] visits the thirty cells of the bar
    and no other: exactly thirty filled cells are drawn, all of them between
    the two brackets, in the colour of the tier. *)
Theorem rpm_bar_above_max_is_full_not_overfull (w : window) (y x rpm : Z) :
  15000 <= rpm <= 65535 ->
  exists fill,
    bar_fill_of rpm 15000 30 = inr fill
    /\ 30 <= fill
    /\ (15500 <= rpm -> 30 < fill)
    /\ filled_cells (log (draw_rpm_bar w y x rpm 15000)) = 30%nat
    /\ Forall (fun ca => x + 1 <= ca.1 <= x + 30 /\ ca.2 = rpm_color rpm)
               (fill_writes (log (draw_rpm_bar w y x rpm 15000))).
Proof.
  intros Hrange. destruct (bar_fill_full rpm Hrange) as (fill & Hfill & H30 & Hover).
  exists fill. rewrite (draw_rpm_bar_run w y x rpm 15000 fill Hfill). cbn [log].
  split_and!; [done|done|done| |apply fill_writes_rpm_bar].
  rewrite filled_cells_rpm_bar. lia.
Qed.

Lemma rpm_bar_above_max_at_20000 :
  15000 <= 20000 <= 65535
  /\ exists fill,
    bar_fill_of 20000 15000 30 = inr fill
    /\ 30 <= fill
    /\ (15500 <= 20000 -> 30 < fill)
    /\ filled_cells (log (draw_rpm_bar panel 3 2 20000 15000)) = 30%nat
    /\ Forall (fun ca => 2 + 1 <= ca.1 <= 2 + 30 /\ ca.2 = rpm_color 20000)
               (fill_writes (log (draw_rpm_bar panel 3 2 20000 15000))).
Proof.
  split; [lia|].
  apply (rpm_bar_above_max_is_full_not_overfull panel 3 2 20000).
  lia.
Defined.

(** C3 as stated fails at [rpm = 20000], above [max_rpm = 15000]: the fill
    count is 40, yet the bar drawn in the panel has thirty filled cells, not
    more than the thirty cells of the bar. *)
Lemma rpm_bar_20000_draws_thirty_cells :
  15000 < 20000
  /\ bar_fill_of 20000 15000 30 = inr 40
  /\ filled_cells (log (draw_rpm_bar panel 3 2 20000 15000)) = 30%nat
  /\ ~ (30 < filled_cells (log (draw_rpm_bar panel 3 2 20000 15000)))%nat.
Proof.
  assert (filled_cells (log (draw_rpm_bar panel 3 2 20000 15000)) = 30%nat)
    as Hcells by (vm_compute; reflexivity).
  split_and!; [lia|vm_compute; reflexivity|exact Hcells|rewrite Hcells; lia].
Qed.

(** C7. The colour of the rotation-rate gauge is the critical tier from
    12000 on, the warning tier from 10000 to 11999 and the normal tier below
    10000; so 9999 is normal, 10000 and 11999 are warning, 12000 is critical.
    Every filled cell [draw_rpm_bar] writes carries that colour. *)
Theorem rpm_tier_boundaries :
  rpm_color 9999 = rpm_tier_attr normal
  /\ rpm_color 10000 = rpm_tier_attr warning
  /\ rpm_color 11999 = rpm_tier_attr warning
  /\ rpm_color 12000 = rpm_tier_attr critical
  /\ (forall rpm, 12000 <= rpm -> rpm_color rpm = rpm_tier_attr critical)
  /\ (forall rpm, 10000 <= rpm < 12000 -> rpm_color rpm = rpm_tier_attr warning)
  /\ (forall rpm, rpm < 10000 -> rpm_color rpm = rpm_tier_attr normal)
  /\ (forall w y x rpm max_rpm,
        Forall (fun ca => ca.2 = rpm_color rpm)
               (fill_writes (log (draw_rpm_bar w y x rpm max_rpm)))).
Proof.
  split_and!; try reflexivity.
  - intros rpm H. unfold rpm_color. destruct (Z.leb_spec 12000 rpm); [done|lia].
  - intros rpm H. unfold rpm_color.
    destruct (Z.leb_spec 12000 rpm); [lia|].
    destruct (Z.leb_spec 10000 rpm); [done|lia].
  - intros rpm H. unfold rpm_color.
    destruct (Z.leb_spec 12000 rpm); [lia|].
    destruct (Z.leb_spec 10000 rpm); [lia|done].
  - intros w y x rpm max_rpm.
    destruct (bar_fill_of rpm max_rpm 30) as [e|fill] eqn:Hfill.
    + unfold draw_rpm_bar, lift. rewrite Hfill. cbn. constructor.
    + rewrite (draw_rpm_bar_run w y x rpm max_rpm fill Hfill). cbn [log].
      eapply Forall_impl; [apply fill_writes_rpm_bar|]. by intros ca [_ ?].
Qed.

Lemma rpm_tier_at_13000 :
  12000 <= 13000 /\ rpm_color 13000 = rpm_tier_attr critical.
Proof.
  split; [lia|].
  apply (proj1 (proj2 (proj2 (proj2 (proj2 rpm_tier_boundaries)))) 13000). lia.
Defined.

(** ** The panel *)

Lemma runs_ret {A} (a : A) : runs (mret a) [] a.
Proof. reflexivity. Qed.

Lemma runs_emit (c : call) : runs (emit c) [c] tt.
Proof. reflexivity. Qed.

Lemma runs_bind {A B} (m : M A) (k : A -> M B) l a l' b :
  runs m l a -> runs (k a) l' b -> runs (m ≫= k) (l ++ l') b.
Proof. unfold runs. intros -> Hk. by rewrite bind_run, Hk. Qed.

Lemma runs_for_each {A} (g : A -> call) (body : A -> M unit) (l : list A) :
  (forall a, a ∈ l -> runs (body a) [g a] tt) ->
  runs (for_each l body) (map g l) tt.
Proof.
  induction l as [|a l IH]; intros Hbody; [reflexivity|].
  cbn [for_each map].
  apply (runs_bind _ _ [g a] tt (map g l) tt).
  - apply Hbody. left.
  - apply IH. intros b Hb. apply Hbody. by right.
Qed.

Lemma enumerate_index {A} (l : list A) (i : nat) (a : A) :
  (i, a) ∈ enumerate l -> (i < length l)%nat.
Proof.
  unfold enumerate. intros Hin. apply elem_of_zip_l in Hin.
  apply elem_of_seq in Hin. lia.
Qed.

Lemma runs_temp_lines (l : list Z) :
  (length l <= 4)%nat ->
  runs (for_each (enumerate l) (fun '(i, temp) =>
          let color := temp_color temp in
          label ← lift (getitem tire_labels i);
          emit (addstr TelemetryWin (9 + Z.of_nat i) 2
                  [Lit label; Lit " Temp: "; Fmt (NInt temp); Lit "°C"] color)))
       (map temp_line (enumerate l)) tt.
Proof.
  intros Hlen. apply runs_for_each. intros [i temp] Hin.
  apply enumerate_index in Hin.
  destruct i as [|[|[|[|i]]]]; [reflexivity..|lia].
Qed.

Lemma runs_wear_lines (l : list Z) :
  (length l <= 4)%nat ->
  runs (for_each (enumerate l) (fun '(i, damage) =>
          let color := wear_color damage in
          label ← lift (getitem tire_labels i);
          emit (addstr TelemetryWin (9 + Z.of_nat i) 30
                  [Lit label; Lit " Wear: "; Fmt (NInt damage); Lit "%"] color)))
       (map wear_line (enumerate l)) tt.
Proof.
  intros Hlen. apply runs_for_each. intros [i damage] Hin.
  apply enumerate_index in Hin.
  destruct i as [|[|[|[|i]]]]; [reflexivity..|lia].
Qed.

Lemma runs_accel_bar (w : window) (y x throttle fill : Z) :
  bar_fill_of throttle 100 10 = inr fill ->
  runs (draw_accel_bar w y x throttle)
       (vbar_calls w y x "Throttle:" 10 fill (color_pair 2)) tt.
Proof.
  intros Hfill. unfold runs, draw_accel_bar, vbar_calls, lift.
  rewrite Hfill, bind_run. cbn [app]. destruct (getmaxyx w) as [height width].
  cbn [fst snd]. destruct ((height <=? y + 10) || (width <=? x + 2)); [reflexivity|].
  rewrite bind_emit.
  rewrite (for_each_emit (vbar_cell (win w) y (x + 10) fill (color_pair 2))).
  2:{ intros i. unfold vbar_cell. by destruct (i <? fill). }
  reflexivity.
Qed.

Lemma runs_brake_bar (w : window) (y x brake fill : Z) :
  bar_fill_of brake 100 10 = inr fill ->
  runs (draw_brake_bar w y x brake)
       (vbar_calls w y x "Brake:" 7 fill (color_pair 3)) tt.
Proof.
  intros Hfill. unfold runs, draw_brake_bar, vbar_calls, lift.
  rewrite Hfill, bind_run. cbn [app]. destruct (getmaxyx w) as [height width].
  cbn [fst snd]. destruct ((height <=? y + 10) || (width <=? x + 2)); [reflexivity|].
  rewrite bind_emit.
  rewrite (for_each_emit (vbar_cell (win w) y (x + 7) fill (color_pair 3))).
  2:{ intros i. unfold vbar_cell. by destruct (i <? fill). }
  reflexivity.
Qed.

Lemma runs_eq {A} (m : M A) (l l' : list call) (a : A) :
  runs m l a -> l = l' -> runs m l' a.
Proof. by intros ? <-. Qed.

Lemma runs_rpm_bar (w : window) (y x rpm max_rpm fill : Z) :
  bar_fill_of rpm max_rpm 30 = inr fill ->
  runs (draw_rpm_bar w y x rpm max_rpm) (rpm_bar_calls (win w) y x rpm fill) tt.
Proof. apply draw_rpm_bar_run. Qed.

(** One statement of a routine: a call on the surface or the end of it. *)
Ltac run_emit := eapply runs_bind; [apply runs_emit|].

Lemma runs_telemetry_box (h w : Z) (d : Data) (rpm_fill throttle_fill brake_fill : Z) :
  75 <= w -> 15 <= h ->
  bar_fill_of (default 0 (engine_rpm d)) (default 15000 (max_rpm d)) 30 = inr rpm_fill ->
  bar_fill_of (default 0 (throttle d)) 100 10 = inr throttle_fill ->
  bar_fill_of (default 0 (brake d)) 100 10 = inr brake_fill ->
  (length (default [0; 0; 0; 0]%Z (tire_temperatures d)) <= 4)%nat ->
  (length (default [0; 0; 0; 0]%Z (tire_wear d)) <= 4)%nat ->
  runs (draw_telemetry_box (Window Stdscr (h, w)) d)
       (panel_calls d rpm_fill throttle_fill brake_fill) true.
Proof.
  intros Hw Hh Hrpm Hthrottle Hbrake Htemps Hwear.
  unfold draw_telemetry_box. cbn [win getmaxyx].
  assert ((w <? 75) || (h <? 15) = false) as -> by lia.
  unfold curses_newwin. eapply runs_eq.
  - run_emit.
    eapply runs_bind; [run_emit; apply runs_ret|]. cbn [win].
    do 3 run_emit.
    eapply runs_bind; [apply (runs_rpm_bar _ _ _ _ _ _ Hrpm)|].
    do 2 run_emit.
    eapply runs_bind; [apply (runs_temp_lines _ Htemps)|].
    eapply runs_bind; [apply (runs_wear_lines _ Hwear)|].
    eapply runs_bind; [apply (runs_accel_bar _ _ _ _ _ Hthrottle)|].
    eapply runs_bind; [apply (runs_brake_bar _ _ _ _ _ Hbrake)|].
    run_emit. apply runs_ret.
  - reflexivity.
Qed.

Lemma vfill_succeeds_byte : forall_range vfill_succeeds 0 (Z.to_nat 256) = true.
Proof. vm_compute. reflexivity. Qed.

Lemma bar_fill_byte (v : Z) :
  0 <= v <= 255 -> exists fill, bar_fill_of v 100 10 = inr fill.
Proof.
  intros Hv.
  assert (vfill_succeeds v = true) as Hcheck.
  { apply (forall_range_spec _ _ _ _ vfill_succeeds_byte). lia. }
  unfold vfill_succeeds in Hcheck.
  destruct (bar_fill_of v 100 10) as [e|fill]; [discriminate|by exists fill].
Qed.

Lemma bar_fill_uint16 (rpm : Z) :
  0 <= rpm <= 65535 -> exists fill, bar_fill_of rpm 15000 30 = inr fill.
Proof.
  intros Hrpm. destruct (Z.eq_dec rpm 61500) as [->|Hne].
  - exists 122. vm_compute. reflexivity.
  - eexists. by apply bar_fill_floor.
Qed.

(** A snapshot that fits its packet fields is drawn to the end. *)
Lemma runs_telemetry_box_ok (h w : Z) (d : Data) :
  75 <= w -> 15 <= h -> snapshot_ok d ->
  exists rpm_fill throttle_fill brake_fill,
    runs (draw_telemetry_box (Window Stdscr (h, w)) d)
         (panel_calls d rpm_fill throttle_fill brake_fill) true.
Proof.
  intros Hw Hh (Hrpm & Hmax & Hthrottle & Hbrake & Htemps & Hwear).
  destruct (bar_fill_uint16 _ Hrpm) as [rpm_fill Hrf].
  destruct (bar_fill_byte _ Hthrottle) as [throttle_fill Htf].
  destruct (bar_fill_byte _ Hbrake) as [brake_fill Hbf].
  exists rpm_fill, throttle_fill, brake_fill.
  apply runs_telemetry_box; try done. by rewrite Hmax.
Qed.

Lemma writes_on_stdscr_vbar (y x : Z) (label : string) (offset fill : Z) (color : attr) :
  Forall (fun c => writes_on_stdscr c = false)
         (vbar_calls panel y x label offset fill color).
Proof.
  unfold vbar_calls. destruct (_ || _); [constructor|].
  constructor; [done|]. apply Forall_map, Forall_true. done.
Qed.

Lemma panel_calls_not_on_stdscr (d : Data) (rpm_fill throttle_fill brake_fill : Z) :
  Forall (fun c => writes_on_stdscr c = false)
         (panel_calls d rpm_fill throttle_fill brake_fill).
Proof.
  unfold panel_calls, rpm_bar_calls. rewrite !Forall_app. split_and!.
  - repeat constructor.
  - constructor; [done|]. rewrite Forall_app. split.
    + apply Forall_map, Forall_true. done.
    + repeat constructor.
  - repeat constructor.
  - apply Forall_map, Forall_true. done.
  - apply Forall_map, Forall_true. done.
  - apply writes_on_stdscr_vbar.
  - apply writes_on_stdscr_vbar.
  - repeat constructor.
Qed.

(** C4. On every surface at least 75 wide and 15 high, whatever snapshot
    fits its packet fields, [draw_telemetry_box] clears the screen, creates
    the 15 by 75 panel at offset (1, 2), draws its border and its content,
    ends with the refresh of the panel and returns [True]; it raises nothing
    and writes no text on the main screen, where the notice of the failure
    branch would go. *)
Theorem render_on_large_surface_succeeds (h w : Z) (d : Data) :
  75 <= w -> 15 <= h -> snapshot_ok d ->
  exists rpm_fill throttle_fill brake_fill,
    let calls := panel_calls d rpm_fill throttle_fill brake_fill in
    draw_telemetry_box (Window Stdscr (h, w)) d = Run calls (inr true)
    /\ take 3 calls = [clear Stdscr; newwin 15 75 1 2; box TelemetryWin]
    /\ last calls = Some (refresh TelemetryWin)
    /\ Forall (fun c => writes_on_stdscr c = false) calls.
Proof.
  intros Hw Hh Hok.
  destruct (runs_telemetry_box_ok h w d Hw Hh Hok) as (f1 & f2 & f3 & Hrun).
  exists f1, f2, f3. cbn zeta. split_and!.
  - exact Hrun.
  - reflexivity.
  - unfold panel_calls. rewrite !app_assoc. apply last_snoc.
  - apply panel_calls_not_on_stdscr.
Qed.

Lemma render_on_80_by_24_succeeds :
  75 <= 80 /\ 15 <= 24 /\ snapshot_ok empty_data
  /\ exists rpm_fill throttle_fill brake_fill,
    let calls := panel_calls empty_data rpm_fill throttle_fill brake_fill in
    draw_telemetry_box (Window Stdscr (24, 80)) empty_data = Run calls (inr true)
    /\ take 3 calls = [clear Stdscr; newwin 15 75 1 2; box TelemetryWin]
    /\ last calls = Some (refresh TelemetryWin)
    /\ Forall (fun c => writes_on_stdscr c = false) calls.
Proof.
  assert (snapshot_ok empty_data) as Hok by (unfold snapshot_ok; cbn; lia).
  split_and!; [lia|lia|exact Hok|].
  apply (render_on_large_surface_succeeds 24 80 empty_data); [lia|lia|exact Hok].
Defined.

(** ** The loops *)

Lemma ret_bind {A B} (a : A) (k : A -> M B) : mret a ≫= k = k a.
Proof. unfold mret, M_ret, mbind, M_bind. by destruct (k a). Qed.

Lemma bind_ext {A B} (m : M A) (k k' : A -> M B) :
  (forall a, k a = k' a) -> m ≫= k = m ≫= k'.
Proof.
  intros Hk. destruct m as [l [e|a]]; [reflexivity|].
  by rewrite !bind_run, Hk.
Qed.

Lemma bind_assoc {A B C} (m : M A) (k : A -> M B) (k' : B -> M C) :
  (m ≫= k) ≫= k' = m ≫= (fun a => k a ≫= k').
Proof.
  destruct m as [l [e|a]]; [reflexivity|].
  rewrite !bind_run. destruct (k a) as [l' [e|b]]; [reflexivity|].
  rewrite !bind_run. cbn [log outcome]. rewrite bind_run. by rewrite app_assoc.
Qed.

Lemma for_packets_app (s : State) (l1 l2 : list arrival) :
  for_packets s (l1 ++ l2) =
  r ← for_packets s l1;
  match r with
  | Some s' => for_packets s' l2
  | None => mret None
  end.
Proof.
  revert s. induction l1 as [|a l1 IH]; intros s.
  - cbn [app for_packets]. by rewrite ret_bind.
  - cbn [app for_packets]. rewrite bind_assoc. apply bind_ext.
    intros [s'|]; [apply IH|by rewrite ret_bind].
Qed.

Lemma draw_telemetry_box_small (h w : Z) (d : Data) :
  w < 75 \/ h < 15 ->
  draw_telemetry_box (Window Stdscr (h, w)) d = Run too_small_calls (inr false).
Proof.
  intros Hsmall. unfold draw_telemetry_box. cbn [win getmaxyx].
  assert ((w <? 75) || (h <? 15) = true) as -> by lia.
  reflexivity.
Qed.

Lemma ingest_car_telemetry (s s' : State) (p : Packet) :
  car_telemetry s p = inr s' -> ingest s 6 p = inr (s', Some (data s')).
Proof. unfold ingest. cbn [Z.eqb Pos.eqb]. by intros ->. Qed.

Lemma for_body_small (s s' : State) (a : arrival) :
  packet_id a = 6 ->
  (screen a).2 < 75 \/ (screen a).1 < 15 ->
  car_telemetry s (packet a) = inr s' ->
  for_body s a = Run too_small_calls (inr None).
Proof.
  intros Hid Hsmall Hs'. unfold for_body, lift.
  rewrite Hid, (ingest_car_telemetry s s' _ Hs'), bind_run.
  cbn [fst snd app]. destruct (screen a) as [h w].
  rewrite (draw_telemetry_box_small h w (data s') Hsmall). reflexivity.
Qed.

(** C5. On every surface less than 75 wide or less than 15 high,
    [draw_telemetry_box] clears the screen, writes the notice, refreshes and
    returns [False]: no window is created and nothing of the panel is drawn.
    When that happens in the loop, [print_telemetry] returns at once: the
    items that follow in the same batch, the refresh and the key of the
    tick, and all later ticks leave no trace. *)
Theorem render_on_small_surface_fails_and_stops :
  (forall h w d,
     w < 75 \/ h < 15 ->
     draw_telemetry_box (Window Stdscr (h, w)) d = Run too_small_calls (inr false))
  /\ (forall s before a rest l s1 s2,
        for_packets s before = Run l (inr (Some s1)) ->
        packet_id a = 6 ->
        (screen a).2 < 75 \/ (screen a).1 < 15 ->
        car_telemetry s1 (packet a) = inr s2 ->
        for_packets s (before ++ a :: rest) = Run (l ++ too_small_calls) (inr None)
        /\ forall key ticks,
             while_true s ((before ++ a :: rest, key) :: ticks)
             = Run (l ++ too_small_calls) (inr None)).
Proof.
  split; [apply draw_telemetry_box_small|].
  intros s before a rest l s1 s2 Hbefore Hid Hsmall Hs2.
  assert (for_packets s (before ++ a :: rest) = Run (l ++ too_small_calls) (inr None))
    as Hstop.
  { rewrite for_packets_app, Hbefore, bind_run. cbn [for_packets].
    rewrite (for_body_small s1 s2 a Hid Hsmall Hs2). reflexivity. }
  split; [exact Hstop|].
  intros key ticks. cbn [while_true]. rewrite Hstop, bind_run.
  cbn [log outcome mret M_ret]. by rewrite app_nil_r.
Qed.

Lemma render_on_80_by_14_fails_and_stops :
  ((80 < 75 \/ 14 < 15) /\
   draw_telemetry_box (Window Stdscr (14, 80)) empty_data = Run too_small_calls (inr false))
  /\ for_packets initial_state
       ([] ++ Arrival (14, 80) 6 (sample_telemetry 0)
           :: [Arrival (14, 80) 6 (sample_telemetry 1)])
     = Run ([] ++ too_small_calls) (inr None).
Proof.
  split.
  - split; [right; lia|].
    apply (proj1 render_on_small_surface_fails_and_stops 14 80 empty_data).
    right. lia.
  - apply (proj2 render_on_small_surface_fails_and_stops initial_state []
             (Arrival (14, 80) 6 (sample_telemetry 0))
             [Arrival (14, 80) 6 (sample_telemetry 1)] [] initial_state
             (after_first_telemetry 0)).
    + reflexivity.
    + reflexivity.
    + right. cbn. lia.
    + vm_compute. reflexivity.
Defined.

(** ** The wheel lines *)

Lemma enumerate_lookup {A} (l : list A) (i : nat) (a : A) :
  l !! i = Some a -> (i, a) ∈ enumerate l.
Proof.
  intros Hi. apply (list_elem_of_lookup_2 _ i). unfold enumerate.
  rewrite lookup_zip_with, lookup_seq_lt by (by apply lookup_lt_Some in Hi).
  cbn. by rewrite Hi.
Qed.

Lemma temp_line_in_panel (d : Data) (f1 f2 f3 : Z) (i : nat) (v : Z) :
  default [0; 0; 0; 0] (tire_temperatures d) !! i = Some v ->
  temp_line (i, v) ∈ panel_calls d f1 f2 f3.
Proof.
  intros Hi. unfold panel_calls. rewrite !elem_of_app.
  right; right; right; left.
  apply list_elem_of_In, (in_map temp_line), list_elem_of_In.
  by apply enumerate_lookup.
Qed.

Lemma wear_line_in_panel (d : Data) (f1 f2 f3 : Z) (i : nat) (v : Z) :
  default [0; 0; 0; 0] (tire_wear d) !! i = Some v ->
  wear_line (i, v) ∈ panel_calls d f1 f2 f3.
Proof.
  intros Hi. unfold panel_calls. rewrite !elem_of_app.
  right; right; right; right; left.
  apply list_elem_of_In, (in_map wear_line), list_elem_of_In.
  by apply enumerate_lookup.
Qed.

(** C8. A wear of at most 50 is drawn in the normal tier, above 50 and up to
    75 in the warning tier, above 75 in the critical tier; a temperature of
    at most 150 in the normal tier, above 150 and up to 250 in the warning
    tier, above 250 in the critical tier. So wear 50, 51 and 76, and
    temperature 150, 151 and 251, are normal, warning and critical. On a
    surface that is large enough, the panel has, for every wheel of the
    snapshot, its temperature line and its wear line in these colours. *)
Theorem wheel_tier_boundaries :
  (forall wear,
     (wear <= 50 -> wear_color wear = wheel_tier_attr normal)
     /\ (50 < wear <= 75 -> wear_color wear = wheel_tier_attr warning)
     /\ (75 < wear -> wear_color wear = wheel_tier_attr critical))
  /\ (forall temp,
     (temp <= 150 -> temp_color temp = wheel_tier_attr normal)
     /\ (150 < temp <= 250 -> temp_color temp = wheel_tier_attr warning)
     /\ (250 < temp -> temp_color temp = wheel_tier_attr critical))
  /\ (wear_color 50 = wheel_tier_attr normal
      /\ wear_color 51 = wheel_tier_attr warning
      /\ wear_color 76 = wheel_tier_attr critical
      /\ temp_color 150 = wheel_tier_attr normal
      /\ temp_color 151 = wheel_tier_attr warning
      /\ temp_color 251 = wheel_tier_attr critical)
  /\ (forall h w d i v,
     75 <= w -> 15 <= h -> snapshot_ok d ->
     (default [0; 0; 0; 0] (tire_temperatures d) !! i = Some v ->
      addstr TelemetryWin (9 + Z.of_nat i) 2
        [Lit (default EmptyString (tire_labels !! i)); Lit " Temp: ";
         Fmt (NInt v); Lit "°C"] (temp_color v)
      ∈ log (draw_telemetry_box (Window Stdscr (h, w)) d))
     /\ (default [0; 0; 0; 0] (tire_wear d) !! i = Some v ->
      addstr TelemetryWin (9 + Z.of_nat i) 30
        [Lit (default EmptyString (tire_labels !! i)); Lit " Wear: ";
         Fmt (NInt v); Lit "%"] (wear_color v)
      ∈ log (draw_telemetry_box (Window Stdscr (h, w)) d))).
Proof.
  split_and!; try reflexivity.
  - intros wear. unfold wear_color. split_and!; intros H.
    + destruct (Z.ltb_spec 75 wear); [lia|]. destruct (Z.ltb_spec 50 wear); [lia|done].
    + destruct (Z.ltb_spec 75 wear); [lia|]. destruct (Z.ltb_spec 50 wear); [done|lia].
    + destruct (Z.ltb_spec 75 wear); [done|lia].
  - intros temp. unfold temp_color. split_and!; intros H.
    + destruct (Z.leb_spec temp 150); [done|lia].
    + destruct (Z.leb_spec temp 150); [lia|]. destruct (Z.leb_spec temp 250); [done|lia].
    + destruct (Z.leb_spec temp 150); [lia|]. destruct (Z.leb_spec temp 250); [lia|done].
  - intros h w d i v Hw Hh Hok.
    destruct (runs_telemetry_box_ok h w d Hw Hh Hok) as (f1 & f2 & f3 & ->).
    cbn [log]. split; intros Hi.
    + apply (temp_line_in_panel d f1 f2 f3 i v Hi).
    + apply (wear_line_in_panel d f1 f2 f3 i v Hi).
Qed.

Lemma wheel_tier_at_wear_60 :
  50 < 60 <= 75 /\ wear_color 60 = wheel_tier_attr warning.
Proof.
  split; [lia|].
  apply (proj1 (proj2 (proj1 wheel_tier_boundaries 60))). lia.
Defined.

(** ** The aggregation *)

(** Inversion of a run in the error monad. *)
Ltac exn_inv :=
  unfold mbind, exn_bind, mret, exn_ret, getitem in *;
  repeat (case_match; try discriminate); simplify_eq/=.

Lemma motion_frame (s s' : State) (p : Packet) :
  motion s p = inr s' ->
  data s' = data s /\ player_car_index s' = player_car_index s
  /\ status_data s' = status_data s /\ car_setup_data s' = car_setup_data s.
Proof. unfold motion. intros H. exn_inv; done. Qed.

Lemma car_status_frame (s s' : State) (p : Packet) :
  car_status s p = inr s' ->
  data s' = data s /\ player_car_index s' = player_car_index s
  /\ motion_data s' = motion_data s /\ car_setup_data s' = car_setup_data s.
Proof. unfold car_status. intros H. exn_inv; done. Qed.

Lemma car_setup_frame (s s' : State) (p : Packet) :
  car_setup s p = inr s' ->
  data s' = data s /\ player_car_index s' = player_car_index s
  /\ motion_data s' = motion_data s /\ status_data s' = status_data s.
Proof. unfold car_setup. intros H. exn_inv; done. Qed.

(** The setup cache changes only in the setup branch, at the tracked index. *)
Lemma car_setup_entry (s s' : State) (p : Packet) (j : nat) :
  car_setup s p = inr s' ->
  car_setup_data s' !! j <> car_setup_data s !! j ->
  player_car_index s = Some j.
Proof.
  unfold car_setup. destruct (player_car_index s) as [idx|]; [|by intros [= <-]].
  destruct (cars_setup_data p) as [e|cars]; [done|]. cbn [mbind exn_bind].
  destruct (getitem cars idx) as [e|c]; [done|]. cbn [mbind exn_bind mret exn_ret].
  intros [= <-] Hne. cbn [car_setup_data] in Hne.
  destruct (decide (idx = j)) as [->|Hnj]; [done|].
  by rewrite lookup_insert_ne in Hne.
Qed.

Lemma car_telemetry_caches (s s' : State) (p : Packet) :
  car_telemetry s p = inr s' ->
  motion_data s' = motion_data s /\ status_data s' = status_data s
  /\ car_setup_data s' = car_setup_data s.
Proof. unfold car_telemetry. intros H. exn_inv; done. Qed.

(** What the telemetry branch builds, for a header that names a car of the
    packet. *)
Lemma car_telemetry_snapshot (s : State) (hd : PacketHeader)
    (cars : list CarTelemetryData) (t : CarTelemetryData) :
  cars !! m_playerCarIndex hd = Some t ->
  exists s',
    car_telemetry s (PacketCarTelemetryData hd cars) = inr s'
    /\ player_car_index s' = Some (m_playerCarIndex hd)
    /\ engine_rpm (data s') = Some (m_engineRPM t)
    /\ tire_temperatures (data s') = Some (m_tyresSurfaceTemperature t)
    /\ g_force (data s') = m_gForceLateral <$> motion_data s !! m_playerCarIndex hd
    /\ tire_wear (data s') = m_tyresDamage <$> status_data s !! m_playerCarIndex hd
    /\ fuel (data s') =
       Some (match car_setup_data s !! m_playerCarIndex hd with
             | Some c => NFloat (m_fuelLoad c)
             | None => default (NInt 0) (fuel (data s))
             end).
Proof.
  intros Ht. unfold car_telemetry, cars_telemetry_data.
  cbn [header mbind exn_bind]. unfold getitem. rewrite Ht.
  cbn [mbind exn_bind mret exn_ret]. eexists. split; [reflexivity|].
  cbn [player_car_index data]. unfold if_in.
  destruct (motion_data s !! m_playerCarIndex hd),
           (status_data s !! m_playerCarIndex hd),
           (car_setup_data s !! m_playerCarIndex hd); cbn; done.
Qed.

Lemma ingest_not_telemetry (s s' : State) (id : Z) (p : Packet) (o : option Data) :
  id <> 6 -> ingest s id p = inr (s', o) ->
  o = None /\ data s' = data s /\ player_car_index s' = player_car_index s.
Proof.
  intros Hid. unfold ingest. destruct (Z.eqb_spec id 6) as [|_]; [done|].
  destruct (id =? 0); [|destruct (id =? 7); [|destruct (id =? 5)]].
  - destruct (motion s p) as [e|s1] eqn:Hs1; [done|]. intros [= <- <-].
    by apply motion_frame in Hs1 as (? & ? & ? & ?).
  - destruct (car_status s p) as [e|s1] eqn:Hs1; [done|]. intros [= <- <-].
    by apply car_status_frame in Hs1 as (? & ? & ? & ?).
  - destruct (car_setup s p) as [e|s1] eqn:Hs1; [done|]. intros [= <- <-].
    by apply car_setup_frame in Hs1 as (? & ? & ? & ?).
  - intros [= <- <-]. done.
Qed.

Lemma ingest_not_setup (s s' : State) (id : Z) (p : Packet) (o : option Data) :
  id <> 5 -> ingest s id p = inr (s', o) ->
  car_setup_data s' = car_setup_data s.
Proof.
  intros Hid. unfold ingest.
  destruct (id =? 6); [|destruct (id =? 0); [|destruct (id =? 7);
    [|destruct (Z.eqb_spec id 5) as [|_]; [done|]]]].
  - destruct (car_telemetry s p) as [e|s1] eqn:Hs1; [done|]. intros [= <- <-].
    by apply car_telemetry_caches in Hs1 as (? & ? & ?).
  - destruct (motion s p) as [e|s1] eqn:Hs1; [done|]. intros [= <- <-].
    by apply motion_frame in Hs1 as (? & ? & ? & ?).
  - destruct (car_status s p) as [e|s1] eqn:Hs1; [done|]. intros [= <- <-].
    by apply car_status_frame in Hs1 as (? & ? & ? & ?).
  - intros [= <- <-]. done.
Qed.

Lemma ingest_untracked (s : State) (id : Z) (p : Packet) :
  player_car_index s = None -> id <> 6 -> ingest s id p = inr (s, None).
Proof.
  intros Hnone Hid. unfold ingest, motion, car_status, car_setup.
  destruct (Z.eqb_spec id 6) as [|_]; [done|]. rewrite Hnone.
  by destruct (id =? 0), (id =? 7), (id =? 5).
Qed.

Lemma ingest_all_cons_inv (s s' : State) (ev : Z * Packet) (evs : list (Z * Packet))
    (l : list Data) :
  ingest_all s (ev :: evs) = inr (s', l) ->
  exists s1 o l1,
    ingest s ev.1 ev.2 = inr (s1, o)
    /\ ingest_all s1 evs = inr (s', l1)
    /\ l = option_list o ++ l1.
Proof.
  cbn [ingest_all].
  destruct (ingest s ev.1 ev.2) as [e|[s1 o]]; cbn [mbind exn_bind fst snd]; [done|].
  destruct (ingest_all s1 evs) as [e|[s2 l1]] eqn:Hrest;
    cbn [mbind exn_bind fst snd]; [done|].
  unfold mret, exn_ret. intros [= <- <-]. by exists s1, o, l1.
Qed.

Lemma ingest_all_not_telemetry (evs : list (Z * Packet)) (s s' : State) (l : list Data) :
  Forall (fun ev => ev.1 <> 6) evs -> ingest_all s evs = inr (s', l) ->
  l = [] /\ data s' = data s /\ player_car_index s' = player_car_index s.
Proof.
  intros Hevs. revert s l. induction Hevs as [|ev evs Hev _ IH]; intros s l Hrun.
  - by injection Hrun as <- <-.
  - apply ingest_all_cons_inv in Hrun as (s1 & o & l1 & H1 & Hrest & ->).
    apply (ingest_not_telemetry _ _ _ _ _ Hev) in H1 as (-> & Hd & Hi).
    apply IH in Hrest as (-> & Hd' & Hi'). split_and!; [done|congruence..].
Qed.

Lemma ingest_all_not_setup (evs : list (Z * Packet)) (s s' : State) (l : list Data) :
  Forall (fun ev => ev.1 <> 5) evs -> ingest_all s evs = inr (s', l) ->
  car_setup_data s' = car_setup_data s.
Proof.
  intros Hevs. revert s l. induction Hevs as [|ev evs Hev _ IH]; intros s l Hrun.
  - by injection Hrun as <- <-.
  - apply ingest_all_cons_inv in Hrun as (s1 & o & l1 & H1 & Hrest & ->).
    apply (ingest_not_setup _ _ _ _ _ Hev) in H1. apply IH in Hrest. congruence.
Qed.

Lemma ingest_all_untracked (evs : list (Z * Packet)) (s : State) :
  player_car_index s = None -> Forall (fun ev => ev.1 <> 6) evs ->
  ingest_all s evs = inr (s, []).
Proof.
  intros Hnone Hevs. induction Hevs as [|ev evs Hev _ IH]; [reflexivity|].
  cbn [ingest_all]. rewrite (ingest_untracked s _ _ Hnone Hev).
  cbn [mbind exn_bind fst snd]. by rewrite IH.
Qed.

Lemma ingest_snapshot (s s' : State) (id : Z) (p : Packet) (d : Data) :
  ingest s id p = inr (s', Some d) ->
  id = 6 /\ d = data s' /\ car_telemetry s p = inr s'.
Proof.
  intros H. destruct (Z.eq_dec id 6) as [->|Hid].
  - unfold ingest in H. cbn [Z.eqb Pos.eqb] in H.
    destruct (car_telemetry s p) as [e|s1]; [done|].
    by injection H as <- <-.
  - by apply (ingest_not_telemetry _ _ _ _ _ Hid) in H as [? _].
Qed.

Lemma lift_bind {A B} (a : A) (k : A -> M B) : lift (inr a) ≫= k = k a.
Proof. apply ret_bind. Qed.

Lemma for_body_silent (s : State) (a : arrival) :
  packet_id a <> 6 ->
  log (for_body s a) = [] /\ outcome (for_body s a) <> inr None.
Proof.
  intros Hid. unfold for_body, lift.
  destruct (ingest s (packet_id a) (packet a)) as [e|[s' o]] eqn:Hrun; [done|].
  apply (ingest_not_telemetry _ _ _ _ _ Hid) in Hrun as (-> & _).
  rewrite bind_run. cbn. done.
Qed.

Lemma for_body_render (s s' : State) (a : arrival) :
  packet_id a = 6 -> car_telemetry s (packet a) = inr s' ->
  for_body s a =
  ok ← draw_telemetry_box (Window Stdscr (screen a)) (data s');
  mret (if ok : bool then Some s' else None).
Proof.
  intros Hid Hs'. unfold for_body.
  by rewrite Hid, (ingest_car_telemetry s s' _ Hs'), lift_bind.
Qed.

Lemma ingest_motion_tracked (s : State) (hd : PacketHeader) (idx : nat)
    (cars : list CarMotionData) (m : CarMotionData) :
  player_car_index s = Some idx -> cars !! idx = Some m ->
  ingest s 0 (PacketMotionData hd cars) = inr (with_motion s idx m, None).
Proof.
  intros Hidx Hc. unfold ingest, motion. cbn [Z.eqb]. rewrite Hidx.
  cbn [cars_motion_data mbind exn_bind]. unfold getitem, with_motion.
  by rewrite Hc, Hidx.
Qed.

Lemma ingest_status_tracked (s : State) (hd : PacketHeader) (idx : nat)
    (cars : list CarStatusData) (c : CarStatusData) :
  player_car_index s = Some idx -> cars !! idx = Some c ->
  ingest s 7 (PacketCarStatusData hd cars) = inr (with_status s idx c, None).
Proof.
  intros Hidx Hc. unfold ingest, car_status. cbn [Z.eqb Pos.eqb]. rewrite Hidx.
  cbn [cars_status_data mbind exn_bind]. unfold getitem, with_status.
  by rewrite Hc, Hidx.
Qed.

Lemma ingest_setup_tracked (s : State) (hd : PacketHeader) (idx : nat)
    (cars : list CarSetupData) (c : CarSetupData) :
  player_car_index s = Some idx -> cars !! idx = Some c ->
  ingest s 5 (PacketCarSetupData hd cars) = inr (with_setup s idx c, None).
Proof.
  intros Hidx Hc. unfold ingest, car_setup. cbn [Z.eqb Pos.eqb]. rewrite Hidx.
  cbn [cars_setup_data mbind exn_bind]. unfold getitem, with_setup.
  by rewrite Hc, Hidx.
Qed.

(** C9. A snapshot comes out of the aggregation only for a telemetry packet
    (kind 6), and it is the one handed to the renderer. A motion, status or
    setup packet (kinds 0, 7, 5) draws nothing, does not end the loop, and
    changes nothing but its own cache, where it stores the entry of the
    tracked car. A packet of any other kind leaves the state as it is and
    draws nothing. *)
Theorem snapshot_only_on_car_telemetry :
  (forall s id p s' d,
     ingest s id p = inr (s', Some d) -> id = 6 /\ d = data s')
  /\ (forall s a s',
     packet_id a = 6 -> car_telemetry s (packet a) = inr s' ->
     for_body s a =
     ok ← draw_telemetry_box (Window Stdscr (screen a)) (data s');
     mret (if ok : bool then Some s' else None))
  /\ (forall s a,
     packet_id a <> 6 ->
     log (for_body s a) = [] /\ outcome (for_body s a) <> inr None)
  /\ (forall s p s' o,
     ingest s 0 p = inr (s', o) ->
     o = None /\ data s' = data s /\ player_car_index s' = player_car_index s
     /\ status_data s' = status_data s /\ car_setup_data s' = car_setup_data s)
  /\ (forall s p s' o,
     ingest s 7 p = inr (s', o) ->
     o = None /\ data s' = data s /\ player_car_index s' = player_car_index s
     /\ motion_data s' = motion_data s /\ car_setup_data s' = car_setup_data s)
  /\ (forall s p s' o,
     ingest s 5 p = inr (s', o) ->
     o = None /\ data s' = data s /\ player_car_index s' = player_car_index s
     /\ motion_data s' = motion_data s /\ status_data s' = status_data s)
  /\ (forall s hd idx,
     player_car_index s = Some idx ->
     (forall cars m, cars !! idx = Some m ->
        ingest s 0 (PacketMotionData hd cars) = inr (with_motion s idx m, None))
     /\ (forall cars c, cars !! idx = Some c ->
        ingest s 7 (PacketCarStatusData hd cars) = inr (with_status s idx c, None))
     /\ (forall cars c, cars !! idx = Some c ->
        ingest s 5 (PacketCarSetupData hd cars) = inr (with_setup s idx c, None)))
  /\ (forall s id p,
     id <> 6 -> id <> 0 -> id <> 7 -> id <> 5 ->
     ingest s id p = inr (s, None)
     /\ forall scr, for_body s (Arrival scr id p) = Run [] (inr (Some s))).
Proof.
  split_and!.
  - intros s id p s' d H. by apply ingest_snapshot in H as (? & ? & _).
  - intros s a s'. apply for_body_render.
  - apply for_body_silent.
  - intros s p s' o H. unfold ingest in H. cbn [Z.eqb] in H.
    destruct (motion s p) as [e|s1] eqn:Hs1; [done|]. injection H as <- <-.
    by apply motion_frame in Hs1 as (? & ? & ? & ?).
  - intros s p s' o H. unfold ingest in H. cbn [Z.eqb Pos.eqb] in H.
    destruct (car_status s p) as [e|s1] eqn:Hs1; [done|]. injection H as <- <-.
    by apply car_status_frame in Hs1 as (? & ? & ? & ?).
  - intros s p s' o H. unfold ingest in H. cbn [Z.eqb Pos.eqb] in H.
    destruct (car_setup s p) as [e|s1] eqn:Hs1; [done|]. injection H as <- <-.
    by apply car_setup_frame in Hs1 as (? & ? & ? & ?).
  - intros s hd idx Hidx. split_and!; intros cars c Hc.
    + by apply ingest_motion_tracked.
    + by apply ingest_status_tracked.
    + by apply ingest_setup_tracked.
  - intros s id p H6 H0 H7 H5.
    assert (ingest s id p = inr (s, None)) as Hrun.
    { unfold ingest.
      destruct (Z.eqb_spec id 6), (Z.eqb_spec id 0), (Z.eqb_spec id 7),
               (Z.eqb_spec id 5); done. }
    split; [exact Hrun|]. intros scr. unfold for_body, lift.
    cbn [packet_id packet]. by rewrite Hrun.
Qed.

Lemma snapshot_only_on_car_telemetry_at_motion :
  sample_motion 3 1 = sample_motion 3 1
  /\ player_car_index (after_first_telemetry 0) = Some 0%nat
  /\ ingest (after_first_telemetry 0) 0 (sample_motion 3 1)
     = inr (with_motion (after_first_telemetry 0) 0
              (Build_CarMotionData (Py.float_of_int 3)), None).
Proof.
  split_and!; [reflexivity|reflexivity|].
  apply (proj1 (proj1 (proj2 (proj2 (proj2 (proj2 (proj2 (proj2
           snapshot_only_on_car_telemetry))))))
           (after_first_telemetry 0) {| m_playerCarIndex := 0 |} 0%nat eq_refl)).
  reflexivity.
Defined.

Lemma float_of_int_10_42 : Py.float_of_int 10 <> Py.float_of_int 42.
Proof.
  intros H.
  apply (f_equal (fun x => PrimFloat.eqb x (Py.float_of_int 42))) in H.
  vm_compute in H. discriminate.
Qed.

Lemma g_force_line_of_absent (d : Data) (f1 f2 f3 : Z) :
  g_force d = None ->
  addstr TelemetryWin 6 2 [Lit "G-Force: "; Fmt (NInt 0)] (color_pair 1)
  ∈ panel_calls d f1 f2 f3.
Proof.
  intros Hg. unfold panel_calls. rewrite Hg, !elem_of_app.
  right; right; left. cbn. left.
Qed.

(** C1, as the code has it. Before the first telemetry packet no car is
    tracked, and a motion packet (like every packet that is not a telemetry
    packet) produces no snapshot and is dropped: the state stays the initial
    one, with empty caches. The first telemetry packet then produces a
    snapshot that has no g-force entry, which the panel shows as 0. *)
Theorem motion_before_first_telemetry_is_dropped
    (evs : list (Z * Packet)) (hd : PacketHeader)
    (cars : list CarTelemetryData) (t : CarTelemetryData) :
  Forall (fun ev => ev.1 <> 6) evs ->
  cars !! m_playerCarIndex hd = Some t ->
  ingest_all initial_state evs = inr (initial_state, [])
  /\ exists s' d,
       ingest (state_of (ingest_all initial_state evs)) 6
              (PacketCarTelemetryData hd cars) = inr (s', Some d)
       /\ g_force d = None
       /\ forall f1 f2 f3,
            addstr TelemetryWin 6 2 [Lit "G-Force: "; Fmt (NInt 0)] (color_pair 1)
            ∈ panel_calls d f1 f2 f3.
Proof.
  intros Hevs Ht.
  assert (ingest_all initial_state evs = inr (initial_state, [])) as Hdrop
    by (by apply ingest_all_untracked).
  split; [exact Hdrop|]. rewrite Hdrop. cbn [state_of].
  destruct (car_telemetry_snapshot initial_state hd cars t Ht)
    as (s' & Hs' & _ & _ & _ & Hg & _).
  exists s', (data s'). split_and!.
  - by apply ingest_car_telemetry.
  - by rewrite Hg.
  - intros f1 f2 f3. apply g_force_line_of_absent. by rewrite Hg.
Qed.

Lemma motion_before_first_telemetry_sample :
  Forall (fun ev : Z * Packet => ev.1 <> 6) [(0, sample_motion 3 1)]
  /\ [car0; car1] !! 0%nat = Some car0
  /\ ingest_all initial_state [(0, sample_motion 3 1)] = inr (initial_state, [])
  /\ exists s' d,
       ingest (state_of (ingest_all initial_state [(0, sample_motion 3 1)])) 6
              (sample_telemetry 0) = inr (s', Some d)
       /\ g_force d = None
       /\ forall f1 f2 f3,
            addstr TelemetryWin 6 2 [Lit "G-Force: "; Fmt (NInt 0)] (color_pair 1)
            ∈ panel_calls d f1 f2 f3.
Proof.
  assert (Forall (fun ev : Z * Packet => ev.1 <> 6) [(0, sample_motion 3 1)]) as Hevs
    by (repeat constructor; cbn; lia).
  split_and!; [exact Hevs|reflexivity|..];
    apply (motion_before_first_telemetry_is_dropped [(0, sample_motion 3 1)]
             {| m_playerCarIndex := 0 |} [car0; car1] car0 Hevs eq_refl).
Defined.

(** C1 as stated fails on the trace of a motion packet with a lateral
    g-force of 3 for car 0 followed by the first telemetry packet, which
    names car 0: the motion packet produces no snapshot, and the snapshot of
    the telemetry packet has no g-force entry instead of 3. *)
Lemma motion_before_first_telemetry_is_not_shown :
  snapshots (ingest_all initial_state [(0, sample_motion 3 1)]) = []
  /\ g_force <$> snapshots
       (ingest_all initial_state [(0, sample_motion 3 1); (6, sample_telemetry 0)])
     = [None]
  /\ [@None float] <> [Some (Py.float_of_int 3)].
Proof. split_and!; [vm_compute; reflexivity..|discriminate]. Qed.

(** C2, as the code has it. Once a setup packet has stored a fuel load for
    the tracked car, every later snapshot built from a telemetry packet whose
    header names that same car, with no setup packet in between, has that
    fuel load. And the entry of a car in the setup cache changes only on a
    setup packet received while that car is the tracked one. *)
Theorem fuel_sticky_for_same_tracked_entity :
  (forall s i hd cars c,
     player_car_index s = Some i -> cars !! i = Some c ->
     ingest s 5 (PacketCarSetupData hd cars) = inr (with_setup s i c, None)
     /\ forall evs s2 l hd' tele t,
          Forall (fun ev => ev.1 <> 5) evs ->
          ingest_all (with_setup s i c) evs = inr (s2, l) ->
          m_playerCarIndex hd' = i -> tele !! i = Some t ->
          exists s3 d,
            ingest s2 6 (PacketCarTelemetryData hd' tele) = inr (s3, Some d)
            /\ fuel d = Some (NFloat (m_fuelLoad c)))
  /\ (forall s id p s' o j,
     ingest s id p = inr (s', o) ->
     car_setup_data s' !! j <> car_setup_data s !! j ->
     id = 5 /\ player_car_index s = Some j).
Proof.
  split.
  - intros s i hd cars c Hi Hc. split.
    + by apply ingest_setup_tracked.
    + intros evs s2 l hd' tele t Hevs Hrun Hhd Ht.
      apply ingest_all_not_setup in Hrun; [|exact Hevs].
      rewrite <- Hhd in Ht.
      destruct (car_telemetry_snapshot s2 hd' tele t Ht)
        as (s3 & Hs3 & _ & _ & _ & _ & _ & Hfuel).
      exists s3, (data s3). split; [by apply ingest_car_telemetry|].
      rewrite Hfuel, Hrun, Hhd. cbn [with_setup car_setup_data].
      by rewrite lookup_insert_eq.
  - intros s id p s' o j Hrun Hne.
    destruct (Z.eq_dec id 5) as [->|Hid].
    + split; [done|]. unfold ingest in Hrun. cbn [Z.eqb Pos.eqb] in Hrun.
      destruct (car_setup s p) as [e|s1] eqn:Hs1; [done|]. injection Hrun as <- <-.
      by apply (car_setup_entry s s1 p j).
    + apply (ingest_not_setup _ _ _ _ _ Hid) in Hrun. by rewrite Hrun in Hne.
Qed.

Lemma fuel_sticky_sample :
  player_car_index (after_first_telemetry 0) = Some 0%nat
  /\ Forall (fun ev : Z * Packet => ev.1 <> 5)
            [(0, sample_motion 3 1); (6, sample_telemetry 0)]
  /\ exists s3 d,
       ingest (state_of (ingest_all
                 (with_setup (after_first_telemetry 0) 0
                    (Build_CarSetupData (Py.float_of_int 42)))
                 [(0, sample_motion 3 1); (6, sample_telemetry 0)]))
              6 (sample_telemetry 0) = inr (s3, Some d)
       /\ fuel d = Some (NFloat (Py.float_of_int 42)).
Proof.
  assert (Forall (fun ev : Z * Packet => ev.1 <> 5)
            [(0, sample_motion 3 1); (6, sample_telemetry 0)]) as Hevs
    by (repeat constructor; cbn; lia).
  split_and!; [reflexivity|exact Hevs|].
  refine (proj2 (proj1 fuel_sticky_for_same_tracked_entity
            (after_first_telemetry 0) 0%nat {| m_playerCarIndex := 0 |}
            [Build_CarSetupData (Py.float_of_int 42);
             Build_CarSetupData (Py.float_of_int 7)]
            (Build_CarSetupData (Py.float_of_int 42)) eq_refl eq_refl)
          [(0, sample_motion 3 1); (6, sample_telemetry 0)]
          _ (snapshots (ingest_all
                 (with_setup (after_first_telemetry 0) 0
                    (Build_CarSetupData (Py.float_of_int 42)))
                 [(0, sample_motion 3 1); (6, sample_telemetry 0)]))
          {| m_playerCarIndex := 0 |} [car0; car1] car0 Hevs _ eq_refl eq_refl).
  vm_compute. reflexivity.
Defined.

(** C2 as stated fails when the tracked car changes to one that has an older
    entry in the setup cache. Car 1 is tracked and a setup packet stores fuel
    10 for it; car 0 becomes the tracked car and a setup packet stores fuel
    42 for it; the next snapshot, for car 0, has fuel 42; then, with no setup
    packet in between, a telemetry packet names car 1 and its snapshot has
    fuel 10. *)
Lemma fuel_changes_without_setup_on_switch :
  fuel <$> snapshots
    (ingest_all initial_state
       [(6, sample_telemetry 1); (5, sample_setup 5 10);
        (6, sample_telemetry 0); (5, sample_setup 42 11);
        (6, sample_telemetry 0); (6, sample_telemetry 1)])
  = [Some (NInt 0); Some (NInt 0);
     Some (NFloat (Py.float_of_int 42)); Some (NFloat (Py.float_of_int 10))]
  /\ NFloat (Py.float_of_int 10) <> NFloat (Py.float_of_int 42).
Proof.
  split; [vm_compute; reflexivity|].
  intros H. apply float_of_int_10_42.
  exact (f_equal (fun v => match v with NFloat f => f | NInt _ => PrimFloat.zero end) H).
Qed.

Lemma car_telemetry_fuel_is_set (s s' : State) (p : Packet) :
  car_telemetry s p = inr s' -> is_Some (fuel (data s')).
Proof.
  unfold car_telemetry. destruct (cars_telemetry_data p) as [e|cars]; [done|].
  cbn [mbind exn_bind]. destruct (getitem cars _) as [e|t]; [done|].
  cbn [mbind exn_bind mret exn_ret]. intros [= <-]. cbn [data]. unfold if_in.
  destruct (motion_data s !! _), (status_data s !! _), (car_setup_data s !! _);
    cbn; eauto.
Qed.

(** C10. The fuel of the previous snapshot is carried over whatever car it
    was built for: when a telemetry packet names a car that has no entry in
    the setup cache, its snapshot has the fuel of the snapshot before it,
    not the default of zero, also when that snapshot was for another car. *)
Theorem fuel_carries_over_to_car_without_setup
    (s s1 s2 : State) (p1 : Packet) (d1 : Data) (evs : list (Z * Packet))
    (l : list Data) (hd : PacketHeader) (cars : list CarTelemetryData)
    (t : CarTelemetryData) :
  ingest s 6 p1 = inr (s1, Some d1) ->
  Forall (fun ev => ev.1 <> 6) evs ->
  ingest_all s1 evs = inr (s2, l) ->
  car_setup_data s2 !! m_playerCarIndex hd = None ->
  cars !! m_playerCarIndex hd = Some t ->
  exists v s3 d2,
    fuel d1 = Some v
    /\ ingest s2 6 (PacketCarTelemetryData hd cars) = inr (s3, Some d2)
    /\ fuel d2 = Some v.
Proof.
  intros H1 Hevs Hrun Hnone Ht.
  apply ingest_snapshot in H1 as (_ & -> & Hs1).
  destruct (car_telemetry_fuel_is_set s s1 p1 Hs1) as [v Hv].
  apply ingest_all_not_telemetry in Hrun as (_ & Hdata & _); [|exact Hevs].
  destruct (car_telemetry_snapshot s2 hd cars t Ht)
    as (s3 & Hs3 & _ & _ & _ & _ & _ & Hfuel).
  exists v, s3, (data s3). split_and!; [done|by apply ingest_car_telemetry|].
  by rewrite Hfuel, Hnone, Hdata, Hv.
Qed.

Lemma fuel_carries_over_sample :
  ingest fuelled_before 6 (sample_telemetry 0) = inr (fuelled, Some (data fuelled))
  /\ player_car_index fuelled = Some 0%nat
  /\ fuel (data fuelled) = Some (NFloat (Py.float_of_int 42))
  /\ car_setup_data (state_of (ingest_all fuelled [(0, sample_motion 3 1)])) !! 1%nat = None
  /\ exists v s3 d2,
       fuel (data fuelled) = Some v
       /\ ingest (state_of (ingest_all fuelled [(0, sample_motion 3 1)])) 6
                 (sample_telemetry 1) = inr (s3, Some d2)
       /\ fuel d2 = Some v.
Proof.
  assert (ingest fuelled_before 6 (sample_telemetry 0)
          = inr (fuelled, Some (data fuelled))) as H1 by (vm_compute; reflexivity).
  assert (car_setup_data (state_of (ingest_all fuelled [(0, sample_motion 3 1)]))
            !! 1%nat = None) as Hnone by (vm_compute; reflexivity).
  split_and!; [exact H1|reflexivity|vm_compute; reflexivity|exact Hnone|].
  refine (fuel_carries_over_to_car_without_setup
            fuelled_before fuelled _ (sample_telemetry 0) (data fuelled)
            [(0, sample_motion 3 1)]
            (snapshots (ingest_all fuelled [(0, sample_motion 3 1)]))
            {| m_playerCarIndex := 1 |} [car0; car1] car1 H1 _ _ Hnone eq_refl).
  - repeat constructor; cbn; lia.
  - vm_compute. reflexivity.
Defined.

(** The snapshot built from a packet whose fields fit their types fits them
    too, so that the panel is drawn to the end for it. *)
Lemma car_telemetry_snapshot_ok (s s' : State) (hd : PacketHeader)
    (cars : list CarTelemetryData) (t : CarTelemetryData) :
  cars !! m_playerCarIndex hd = Some t ->
  car_telemetry s (PacketCarTelemetryData hd cars) = inr s' ->
  0 <= m_engineRPM t <= 65535 ->
  0 <= m_throttle t <= 255 ->
  0 <= m_brake t <= 255 ->
  (length (m_tyresSurfaceTemperature t) <= 4)%nat ->
  (forall c, status_data s !! m_playerCarIndex hd = Some c ->
             (length (m_tyresDamage c) <= 4)%nat) ->
  snapshot_ok (data s').
Proof.
  intros Ht Hs' Hrpm Hthrottle Hbrake Htemps Hwear.
  unfold car_telemetry, cars_telemetry_data in Hs'.
  cbn [header mbind exn_bind] in Hs'. unfold getitem in Hs'. rewrite Ht in Hs'.
  cbn [mbind exn_bind mret exn_ret] in Hs'. injection Hs' as <-.
  cbn [data]. unfold snapshot_ok, if_in.
  destruct (status_data s !! m_playerCarIndex hd) as [c|] eqn:Hc.
  - specialize (Hwear c eq_refl).
    destruct (motion_data s !! m_playerCarIndex hd),
             (car_setup_data s !! m_playerCarIndex hd); cbn; split_and!; done || lia.
  - destruct (motion_data s !! m_playerCarIndex hd),
             (car_setup_data s !! m_playerCarIndex hd); cbn; split_and!; done || lia.
Qed.

(** * Further properties of the gauges *)

Lemma shown_is_floor_uint16 : forall_range shown_is_floor 0 (Z.to_nat 65536) = true.
Proof. vm_compute. reflexivity. Qed.

Lemma fill_steps_up_uint16 : forall_range fill_steps_up 0 (Z.to_nat 65535) = true.
Proof. vm_compute. reflexivity. Qed.

Lemma vfill_is_floor_byte : forall_range vfill_is_floor 0 (Z.to_nat 256) = true.
Proof. vm_compute. reflexivity. Qed.

(** X1. For every rotation rate of an unsigned 16-bit field, with
    [max_rpm = 15000], [draw_rpm_bar] ends normally after 33 calls and the
    number of filled cells it draws is [min(30, floor(rpm / 500))], the value
    61500 included: the rounding of the doubles never shows in the bar. *)
Theorem rpm_bar_shows_capped_floor (w : window) (y x rpm : Z) :
  0 <= rpm <= 65535 ->
  outcome (draw_rpm_bar w y x rpm 15000) = inr tt
  /\ length (log (draw_rpm_bar w y x rpm 15000)) = 33%nat
  /\ filled_cells (log (draw_rpm_bar w y x rpm 15000))
     = Z.to_nat (Z.min 30 (rpm / 500)).
Proof.
  intros Hrpm.
  assert (shown_is_floor rpm = true) as Hcheck.
  { apply (forall_range_spec _ _ _ _ shown_is_floor_uint16). lia. }
  unfold shown_is_floor in Hcheck.
  destruct (bar_fill_of rpm 15000 30) as [e|fill] eqn:Hfill; [discriminate|].
  apply andb_true_iff in Hcheck as [Hpos Hmin].
  rewrite (draw_rpm_bar_run w y x rpm 15000 fill Hfill). cbn [log outcome].
  split_and!; [done|reflexivity|].
  rewrite filled_cells_rpm_bar. lia.
Qed.

Lemma rpm_bar_shows_capped_floor_at_61500 :
  0 <= 61500 <= 65535
  /\ outcome (draw_rpm_bar panel 3 2 61500 15000) = inr tt
  /\ length (log (draw_rpm_bar panel 3 2 61500 15000)) = 33%nat
  /\ filled_cells (log (draw_rpm_bar panel 3 2 61500 15000))
     = Z.to_nat (Z.min 30 (61500 / 500)).
Proof.
  split; [lia|]. apply (rpm_bar_shows_capped_floor panel 3 2 61500). lia.
Defined.

Lemma rpm_fill_step (rpm : Z) :
  0 <= rpm < 65535 -> rpm_fill rpm <= rpm_fill (rpm + 1).
Proof.
  intros Hrpm.
  assert (fill_steps_up rpm = true) as Hcheck.
  { apply (forall_range_spec _ _ _ _ fill_steps_up_uint16). lia. }
  unfold fill_steps_up in Hcheck. unfold rpm_fill.
  destruct (bar_fill_of rpm 15000 30) as [e|a]; [discriminate|].
  destruct (bar_fill_of (rpm + 1) 15000 30) as [e|b]; [discriminate|]. lia.
Qed.

Lemma rpm_fill_mono (n : nat) (rpm : Z) :
  0 <= rpm -> rpm + Z.of_nat n <= 65535 ->
  rpm_fill rpm <= rpm_fill (rpm + Z.of_nat n).
Proof.
  intros Hlo. induction n as [|n IH]; intros Hhi.
  - by rewrite Z.add_0_r.
  - etrans; [apply IH; lia|].
    replace (rpm + Z.of_nat (S n)) with (rpm + Z.of_nat n + 1) by lia.
    apply rpm_fill_step. lia.
Qed.

(** X2. The fill count of the rotation-rate gauge never goes down when the
    rotation rate goes up, anywhere in the range of an unsigned 16-bit
    field. *)
Theorem rpm_fill_monotone (rpm1 rpm2 fill1 fill2 : Z) :
  0 <= rpm1 <= rpm2 -> rpm2 <= 65535 ->
  bar_fill_of rpm1 15000 30 = inr fill1 ->
  bar_fill_of rpm2 15000 30 = inr fill2 ->
  fill1 <= fill2.
Proof.
  intros H12 Hhi H1 H2.
  pose proof (rpm_fill_mono (Z.to_nat (rpm2 - rpm1)) rpm1) as Hmono.
  replace (rpm1 + Z.of_nat (Z.to_nat (rpm2 - rpm1))) with rpm2 in Hmono by lia.
  unfold rpm_fill in Hmono. rewrite H1, H2 in Hmono. apply Hmono; lia.
Qed.

Lemma rpm_fill_monotone_sample :
  0 <= 9000 <= 61500 /\ 61500 <= 65535
  /\ bar_fill_of 9000 15000 30 = inr 18
  /\ bar_fill_of 61500 15000 30 = inr 122
  /\ 18 <= 122.
Proof.
  assert (bar_fill_of 9000 15000 30 = inr 18) as H1 by (vm_compute; reflexivity).
  assert (bar_fill_of 61500 15000 30 = inr 122) as H2 by (vm_compute; reflexivity).
  split_and!; [lia|lia|lia|exact H1|exact H2|].
  apply (rpm_fill_monotone 9000 61500 18 122); [lia|lia|exact H1|exact H2].
Defined.

Lemma bar_fill_byte_floor (v : Z) :
  0 <= v <= 255 -> bar_fill_of v 100 10 = inr (v / 10).
Proof.
  intros Hv.
  assert (vfill_is_floor v = true) as Hcheck.
  { apply (forall_range_spec _ _ _ _ vfill_is_floor_byte). lia. }
  unfold vfill_is_floor in Hcheck.
  destruct (bar_fill_of v 100 10) as [e|fill]; [discriminate|].
  apply Z.eqb_eq in Hcheck. by subst.
Qed.

(** The rows of the filled cells of a vertical gauge: from the bottom row
    up, as many as the fill count, and at most as many as there are cells. *)
Lemma fill_rows_vbar (w : win_id) (y x fill : Z) (color : attr) (k : nat) :
  fill_rows (map (vbar_cell w y x fill color) (seqZ 0 (Z.of_nat k)))
  = map (fun i => y + 10 - i - 1) (seqZ 0 (Z.min (Z.of_nat k) (Z.max 0 fill))).
Proof.
  induction k as [|k IH].
  - rewrite seqZ_nil by lia. by rewrite seqZ_nil by lia.
  - rewrite seqZ_S, map_app. unfold fill_rows in *. rewrite omap_app, IH.
    cbn [map omap]. unfold vbar_cell at 1. cbn [is_fill]. rewrite Z.add_0_l.
    destruct (Z.ltb_spec (Z.of_nat k) fill) as [Hlt|Hge].
    + cbn. replace (Z.min (Z.of_nat k) (Z.max 0 fill)) with (Z.of_nat k) by lia.
      replace (Z.min (Z.of_nat (S k)) (Z.max 0 fill)) with (Z.of_nat (S k)) by lia.
      rewrite (seqZ_S 0 k), map_app. cbn [map]. by rewrite Z.add_0_l.
    + cbn. rewrite app_nil_r. f_equal. f_equal. lia.
Qed.

Lemma fill_rows_vbar_calls (w : window) (y x : Z) (label : string)
    (offset fill : Z) (color : attr) :
  y + 10 < (getmaxyx w).1 -> x + 2 < (getmaxyx w).2 ->
  vbar_calls w y x label offset fill color
  = addstr (win w) y x [Lit label] (color_pair 1)
    :: map (vbar_cell (win w) y (x + offset) fill color) (range 10).
Proof.
  intros Hy Hx. unfold vbar_calls.
  replace ((getmaxyx w).1 <=? y + 10) with false by (symmetry; lia).
  by replace ((getmaxyx w).2 <=? x + 2) with false by (symmetry; lia).
Qed.

Lemma writes_vbar (w : win_id) (y x fill : Z) (color : attr) (l : list Z) :
  writes (map (vbar_cell w y x fill color) l)
  = map (fun i => (y + 10 - i - 1, x)) l.
Proof. induction l as [|i l IH]; [reflexivity|]. cbn. by rewrite <- IH. Qed.

Lemma writes_addstr (w : win_id) (y x : Z) (s : list piece) (a : attr)
    (l : list call) :
  writes (addstr w y x s a :: l) = (y, x) :: writes l.
Proof. reflexivity. Qed.

Lemma fill_rows_vbar_10 (w : win_id) (y x fill : Z) (color : attr) :
  fill_rows (map (vbar_cell w y x fill color) (range 10))
  = map (fun i => y + 10 - i - 1) (seqZ 0 (Z.min 10 (Z.max 0 fill))).
Proof. exact (fill_rows_vbar w y x fill color 10). Qed.

(** X3. For every throttle or brake value of an unsigned byte, the fill
    count [int((value / 100) * 10)] of the vertical gauges is exactly
    [floor(value / 10)]: the doubles lose nothing here. *)
Theorem vertical_fill_is_floor (v : Z) :
  0 <= v <= 255 -> bar_fill_of v 100 10 = inr (v / 10).
Proof. apply bar_fill_byte_floor. Qed.

Lemma vertical_fill_is_floor_at_55 :
  0 <= 55 <= 255 /\ bar_fill_of 55 100 10 = inr (55 / 10).
Proof. split; [lia|]. apply (vertical_fill_is_floor 55). lia. Defined.

(** X4. In a window that passes their size test, [draw_accel_bar] and
    [draw_brake_bar] write their label at [(y, x)] and then ten cells, in
    one column, from row [y + 9] up to row [y]; the filled cells are the
    lowest [min(10, floor(value / 10))] rows, so a gauge fills from the
    bottom and a value above 100 fills all ten cells and no more. *)
Theorem vertical_gauges_fill_from_the_bottom (w : window) (y x v : Z) :
  0 <= v <= 255 ->
  y + 10 < (getmaxyx w).1 -> x + 2 < (getmaxyx w).2 ->
  (outcome (draw_accel_bar w y x v) = inr tt
   /\ writes (log (draw_accel_bar w y x v))
      = (y, x) :: map (fun i => (y + 10 - i - 1, x + 10)) (seqZ 0 10)
   /\ fill_rows (log (draw_accel_bar w y x v))
      = map (fun i => y + 10 - i - 1) (seqZ 0 (Z.min 10 (v / 10))))
  /\ (outcome (draw_brake_bar w y x v) = inr tt
   /\ writes (log (draw_brake_bar w y x v))
      = (y, x) :: map (fun i => (y + 10 - i - 1, x + 7)) (seqZ 0 10)
   /\ fill_rows (log (draw_brake_bar w y x v))
      = map (fun i => y + 10 - i - 1) (seqZ 0 (Z.min 10 (v / 10)))).
Proof.
  intros Hv Hy Hx. pose proof (bar_fill_byte_floor v Hv) as Hfill.
  assert (0 <= v / 10) as Hpos by (apply Z.div_pos; lia).
  split.
  - rewrite (runs_accel_bar w y x v (v / 10) Hfill).
    rewrite (fill_rows_vbar_calls w y x _ _ _ _ Hy Hx). cbn [log outcome].
    split; [done|split].
    + by rewrite writes_addstr, writes_vbar.
    + change (fill_rows (?c :: ?l)) with (fill_rows l).
      rewrite fill_rows_vbar_10. do 2 f_equal. lia.
  - rewrite (runs_brake_bar w y x v (v / 10) Hfill).
    rewrite (fill_rows_vbar_calls w y x _ _ _ _ Hy Hx). cbn [log outcome].
    split; [done|split].
    + by rewrite writes_addstr, writes_vbar.
    + change (fill_rows (?c :: ?l)) with (fill_rows l).
      rewrite fill_rows_vbar_10. do 2 f_equal. lia.
Qed.

Lemma vertical_gauges_at_55_in_panel :
  0 <= 55 <= 255 /\ 3 + 10 < (getmaxyx panel).1 /\ 50 + 2 < (getmaxyx panel).2
  /\ fill_rows (log (draw_accel_bar panel 3 50 55))
     = map (fun i => 3 + 10 - i - 1) (seqZ 0 (Z.min 10 (55 / 10))).
Proof.
  split_and!; [lia|lia|cbn; lia|cbn; lia|].
  apply (vertical_gauges_fill_from_the_bottom panel 3 50 55); [lia|cbn; lia..].
Defined.

(** X5. In a window that fails their size test ([y + 10 >= height] or
    [x + 2 >= width]) the two vertical gauges draw nothing at all, not even
    their label, and end normally. *)
Theorem vertical_gauges_skip_small_window (w : window) (y x v : Z) :
  0 <= v <= 255 ->
  (getmaxyx w).1 <= y + 10 \/ (getmaxyx w).2 <= x + 2 ->
  draw_accel_bar w y x v = Run [] (inr tt)
  /\ draw_brake_bar w y x v = Run [] (inr tt).
Proof.
  intros Hv Hsmall. pose proof (bar_fill_byte_floor v Hv) as Hfill.
  assert (((getmaxyx w).1 <=? y + 10) || ((getmaxyx w).2 <=? x + 2) = true)
    as Htest by lia.
  split.
  - rewrite (runs_accel_bar w y x v (v / 10) Hfill). unfold vbar_calls.
    by rewrite Htest.
  - rewrite (runs_brake_bar w y x v (v / 10) Hfill). unfold vbar_calls.
    by rewrite Htest.
Qed.

Lemma vertical_gauges_skip_12_rows :
  0 <= 55 <= 255
  /\ ((getmaxyx (Window TelemetryWin (12, 75))).1 <= 3 + 10
      \/ (getmaxyx (Window TelemetryWin (12, 75))).2 <= 50 + 2)
  /\ draw_accel_bar (Window TelemetryWin (12, 75)) 3 50 55 = Run [] (inr tt)
  /\ draw_brake_bar (Window TelemetryWin (12, 75)) 3 50 55 = Run [] (inr tt).
Proof.
  assert ((getmaxyx (Window TelemetryWin (12, 75))).1 <= 3 + 10
          \/ (getmaxyx (Window TelemetryWin (12, 75))).2 <= 50 + 2) as Hsmall
    by (left; cbn; lia).
  split_and!; [lia|lia|exact Hsmall|..];
    apply (vertical_gauges_skip_small_window (Window TelemetryWin (12, 75)) 3 50 55);
    (lia || exact Hsmall).
Defined.



(** * Further properties of the panel *)

Lemma log_bind {A B} (m : M A) (k : A -> M B) :
  log (m ≫= k) = log m ++ match outcome m with
                          | inr a => log (k a)
                          | inl _ => []
                          end.
Proof.
  destruct m as [l [e|a]].
  - cbn. by rewrite app_nil_r.
  - by rewrite bind_run.
Qed.

Lemma outcome_bind {A B} (m : M A) (k : A -> M B) :
  outcome (m ≫= k) = match outcome m with
                     | inr a => outcome (k a)
                     | inl e => inl e
                     end.
Proof. destruct m as [l [e|a]]; [reflexivity|by rewrite bind_run]. Qed.

Lemma Forall_log_bind {A B} (P : call -> Prop) (m : M A) (k : A -> M B) :
  Forall P (log m) ->
  (forall a, outcome m = inr a -> Forall P (log (k a))) ->
  Forall P (log (m ≫= k)).
Proof.
  intros Hm Hk. rewrite log_bind, Forall_app. split; [done|].
  destruct (outcome m) as [e|a]; [constructor|by apply Hk].
Qed.

Lemma Forall_log_for_each {A} (P : call -> Prop) (l : list A) (body : A -> M unit) :
  (forall a, a ∈ l -> Forall P (log (body a))) ->
  Forall P (log (for_each l body)).
Proof.
  induction l as [|a l IH]; intros Hbody; [constructor|].
  cbn [for_each]. apply Forall_log_bind.
  - apply Hbody. left.
  - intros _ _. apply IH. intros b Hb. apply Hbody. by right.
Qed.

Lemma rpm_color_known (rpm : Z) :
  exists n, rpm_color rpm = color_pair n /\ 2 <= n <= 4.
Proof.
  unfold rpm_color. destruct (12000 <=? rpm); [exists 4; split; [done|lia]|].
  destruct (10000 <=? rpm); [exists 3|exists 2]; split; (done || lia).
Qed.

Lemma temp_color_known (temp : Z) :
  exists n, temp_color temp = color_pair n /\ 2 <= n <= 5.
Proof.
  unfold temp_color. destruct (temp <=? 150); [exists 2; split; [done|lia]|].
  destruct (temp <=? 250); [exists 5|exists 3]; split; (done || lia).
Qed.

Lemma wear_color_known (damage : Z) :
  exists n, wear_color damage = color_pair n /\ 2 <= n <= 5.
Proof.
  unfold wear_color. destruct (75 <? damage); [exists 3; split; [done|lia]|].
  destruct (50 <? damage); [exists 5|exists 2]; split; (done || lia).
Qed.

Lemma tidy_rpm_bar (rpm max_rpm : Z) :
  Forall tidy (log (draw_rpm_bar panel 3 2 rpm max_rpm)).
Proof.
  destruct (bar_fill_of rpm max_rpm 30) as [e|fill] eqn:Hfill.
  - unfold draw_rpm_bar, lift. rewrite Hfill. constructor.
  - rewrite (draw_rpm_bar_run panel 3 2 rpm max_rpm fill Hfill). cbn [log win panel].
    destruct (rpm_color_known rpm) as (n & Hn & Hrange).
    unfold rpm_bar_calls. rewrite Hn. constructor; [|rewrite Forall_app; split].
    + split; cbn; lia.
    + apply Forall_map, Forall_seqZ. intros i Hi. split; cbn; lia.
    + repeat constructor; cbn; lia.
Qed.

Lemma tidy_vbar (y x : Z) (label : string) (offset fill n : Z) :
  3 <= y <= 3 -> 2 <= x -> x + offset <= 70 -> 0 <= offset -> 1 <= n <= 5 ->
  Forall tidy (vbar_calls panel y x label offset fill (color_pair n)).
Proof.
  intros Hy Hx Hoff Hpos Hn. unfold vbar_calls. destruct (_ || _); [constructor|].
  constructor.
  - split; cbn; lia.
  - apply Forall_map, Forall_seqZ. intros i Hi. split; cbn; lia.
Qed.

Lemma tidy_accel_bar (throttle : Z) :
  Forall tidy (log (draw_accel_bar panel 3 50 throttle)).
Proof.
  destruct (bar_fill_of throttle 100 10) as [e|fill] eqn:Hfill.
  - unfold draw_accel_bar, lift. rewrite Hfill. constructor.
  - rewrite (runs_accel_bar panel 3 50 throttle fill Hfill). cbn [log].
    apply tidy_vbar; lia.
Qed.

Lemma tidy_brake_bar (brake : Z) :
  Forall tidy (log (draw_brake_bar panel 3 63 brake)).
Proof.
  destruct (bar_fill_of brake 100 10) as [e|fill] eqn:Hfill.
  - unfold draw_brake_bar, lift. rewrite Hfill. constructor.
  - rewrite (runs_brake_bar panel 3 63 brake fill Hfill). cbn [log].
    apply tidy_vbar; lia.
Qed.

Lemma tidy_telemetry_box (h w : Z) (d : Data) :
  Forall tidy (log (draw_telemetry_box (Window Stdscr (h, w)) d)).
Proof.
  unfold draw_telemetry_box. cbn [win getmaxyx].
  apply Forall_log_bind; [repeat constructor|]. intros _ _.
  destruct ((w <? 75) || (h <? 15)).
  { repeat constructor; cbn; lia. }
  apply Forall_log_bind; [repeat constructor|].
  intros telemetry_win [= <-]. cbn [win].
  apply Forall_log_bind; [repeat constructor|]. intros _ _.
  apply Forall_log_bind; [repeat constructor; cbn; lia|]. intros _ _.
  apply Forall_log_bind; [repeat constructor; cbn; lia|]. intros _ _.
  apply Forall_log_bind; [apply tidy_rpm_bar|]. intros _ _.
  apply Forall_log_bind; [repeat constructor; cbn; lia|]. intros _ _.
  apply Forall_log_bind; [repeat constructor; cbn; lia|]. intros _ _.
  apply Forall_log_bind.
  { apply Forall_log_for_each. intros [i temp] _.
    destruct (temp_color_known temp) as (n & Hn & Hrange).
    destruct i as [|[|[|[|i]]]]; cbn; rewrite ?Hn;
      repeat constructor; cbn; lia. }
  intros _ _. apply Forall_log_bind.
  { apply Forall_log_for_each. intros [i damage] _.
    destruct (wear_color_known damage) as (n & Hn & Hrange).
    destruct i as [|[|[|[|i]]]]; cbn; rewrite ?Hn;
      repeat constructor; cbn; lia. }
  intros _ _.
  apply Forall_log_bind; [apply tidy_accel_bar|]. intros _ _.
  apply Forall_log_bind; [apply tidy_brake_bar|]. intros _ _.
  apply Forall_log_bind; [repeat constructor|]. intros _ _. constructor.
Qed.

(** X7. Whatever the snapshot and whatever the size of the terminal, also
    when it raises half way, [draw_telemetry_box] starts every text it
    writes in the panel inside the border of the panel (rows 1 to 12,
    columns 2 to 70), and writes on the main screen only at its origin. *)
Theorem telemetry_box_writes_inside_panel (h w : Z) (d : Data) :
  Forall inside (log (draw_telemetry_box (Window Stdscr (h, w)) d)).
Proof.
  eapply Forall_impl; [apply tidy_telemetry_box|]. by intros c [? _].
Qed.

Lemma telemetry_box_writes_inside_panel_sample :
  Forall inside
    (log (draw_telemetry_box (Window Stdscr (24, 80))
            (data (after_first_telemetry 0)))).
Proof.
  apply (telemetry_box_writes_inside_panel 24 80 (data (after_first_telemetry 0))).
Defined.

Lemma outcome_telemetry_box_large (h w : Z) (d : Data) :
  75 <= w -> 15 <= h ->
  outcome (draw_telemetry_box (Window Stdscr (h, w)) d) <> inr false.
Proof.
  intros Hw Hh. unfold draw_telemetry_box. cbn [win getmaxyx].
  assert ((w <? 75) || (h <? 15) = false) as -> by lia.
  repeat (rewrite outcome_bind; case_match; [done|]).
  done.
Qed.

(** X8. [draw_telemetry_box] returns [False] exactly when the terminal is
    less than 75 wide or less than 15 high, and then its whole effect is the
    clear, the notice and the refresh; on a larger terminal it returns
    [True] or raises. *)
Theorem telemetry_box_false_iff_small (h w : Z) (d : Data) :
  (outcome (draw_telemetry_box (Window Stdscr (h, w)) d) = inr false
   <-> w < 75 \/ h < 15)
  /\ (outcome (draw_telemetry_box (Window Stdscr (h, w)) d) = inr false ->
      log (draw_telemetry_box (Window Stdscr (h, w)) d) = too_small_calls)
  /\ (outcome (draw_telemetry_box (Window Stdscr (h, w)) d) = inr true ->
      75 <= w /\ 15 <= h).
Proof.
  assert (outcome (draw_telemetry_box (Window Stdscr (h, w)) d) = inr false ->
          w < 75 \/ h < 15) as Honly.
  { intros Hfalse. destruct (Z.lt_ge_cases w 75) as [|Hw]; [by left|].
    destruct (Z.lt_ge_cases h 15) as [|Hh]; [by right|].
    by destruct (outcome_telemetry_box_large h w d Hw Hh). }
  split_and!.
  - split; [exact Honly|]. intros Hsmall.
    by rewrite (draw_telemetry_box_small h w d Hsmall).
  - intros Hfalse. by rewrite (draw_telemetry_box_small h w d (Honly Hfalse)).
  - intros Htrue. destruct (Z.lt_ge_cases w 75) as [Hw|Hw].
    { by rewrite (draw_telemetry_box_small h w d (or_introl Hw)) in Htrue. }
    destruct (Z.lt_ge_cases h 15) as [Hh|Hh]; [|done].
    by rewrite (draw_telemetry_box_small h w d (or_intror Hh)) in Htrue.
Qed.

Lemma telemetry_box_false_on_80_by_14 :
  outcome (draw_telemetry_box (Window Stdscr (14, 80)) empty_data) = inr false
  /\ log (draw_telemetry_box (Window Stdscr (14, 80)) empty_data) = too_small_calls.
Proof.
  assert (outcome (draw_telemetry_box (Window Stdscr (14, 80)) empty_data) = inr false)
    as Hfalse by reflexivity.
  split; [exact Hfalse|].
  apply (proj1 (proj2 (telemetry_box_false_iff_small 14 80 empty_data)) Hfalse).
Defined.

(** * Further properties of the loops *)

Lemma for_body_cases (s : State) (a : arrival) :
  (exists e, ingest s (packet_id a) (packet a) = inl e
             /\ for_body s a = Run [] (inl e))
  \/ (exists s', ingest s (packet_id a) (packet a) = inr (s', None)
                 /\ for_body s a = Run [] (inr (Some s')))
  \/ (exists s' d, ingest s (packet_id a) (packet a) = inr (s', Some d)
                   /\ for_body s a =
                      ok ← draw_telemetry_box (Window Stdscr (screen a)) d;
                      mret (if ok : bool then Some s' else None)).
Proof.
  unfold for_body.
  destruct (ingest s (packet_id a) (packet a)) as [e|[s' [d|]]].
  - left. by exists e.
  - right; right. exists s', d. by rewrite lift_bind.
  - right; left. exists s'. by rewrite lift_bind.
Qed.

Lemma tidy_for_body (s : State) (a : arrival) :
  Forall tidy (log (for_body s a)).
Proof.
  destruct (for_body_cases s a)
    as [(e & _ & ->)|[(s' & _ & ->)|(s' & d & _ & ->)]]; [constructor..|].
  destruct (screen a) as [h w]. apply Forall_log_bind.
  - apply tidy_telemetry_box.
  - intros ok _. constructor.
Qed.

Lemma tidy_for_packets (l : list arrival) (s : State) :
  Forall tidy (log (for_packets s l)).
Proof.
  revert s. induction l as [|a l IH]; intros s; [constructor|].
  cbn [for_packets]. apply Forall_log_bind; [apply tidy_for_body|].
  intros [s'|] _; [apply IH|constructor].
Qed.

Lemma tidy_while_true (ticks : list (list arrival * Z)) (s : State) :
  Forall tidy (log (while_true s ticks)).
Proof.
  revert s. induction ticks as [|[arrivals key] ticks IH]; intros s; [constructor|].
  cbn [while_true]. apply Forall_log_bind; [apply tidy_for_packets|].
  intros [s'|] _; [|constructor].
  apply Forall_log_bind; [repeat constructor|]. intros _ _.
  destruct (key =? ord_q); [constructor|apply IH].
Qed.

(** X9. Whatever arrives, [print_telemetry] first sets the terminal up, with
    its five colour pairs, and every text it writes afterwards, in the panel
    or on the main screen, uses one of these five pairs. *)
Theorem print_telemetry_uses_initialised_pairs (ticks : list (list arrival * Z)) :
  take 9 (log (print_telemetry ticks)) = setup_calls
  /\ log (print_telemetry ticks) = setup_calls ++ log (while_true initial_state ticks)
  /\ Forall known_pair (log (print_telemetry ticks)).
Proof.
  assert (log (print_telemetry ticks)
          = setup_calls ++ log (while_true initial_state ticks)) as Hlog.
  { unfold print_telemetry. rewrite !bind_emit. reflexivity. }
  split_and!; [by rewrite Hlog|exact Hlog|].
  rewrite Hlog, Forall_app. split; [repeat constructor|].
  eapply Forall_impl; [apply tidy_while_true|]. by intros c [_ ?].
Qed.

Lemma print_telemetry_uses_initialised_pairs_sample :
  take 9 (log (print_telemetry [([Arrival (24, 80) 6 (sample_telemetry 0)], ord_q)]))
  = setup_calls
  /\ log (print_telemetry [([Arrival (24, 80) 6 (sample_telemetry 0)], ord_q)])
     = setup_calls
       ++ log (while_true initial_state
                 [([Arrival (24, 80) 6 (sample_telemetry 0)], ord_q)])
  /\ Forall known_pair
       (log (print_telemetry [([Arrival (24, 80) 6 (sample_telemetry 0)], ord_q)])).
Proof.
  apply (print_telemetry_uses_initialised_pairs
           [([Arrival (24, 80) 6 (sample_telemetry 0)], ord_q)]).
Defined.

(** X10. After the packets of a tick, the screen is refreshed and the key is
    read: on [q] [print_telemetry] returns and no later tick is looked at; on
    any other key, or none, it goes on with the next tick, so a tick without
    packets only refreshes the screen. *)
Theorem quit_key_ends_the_loop (s s' : State) (arrivals : list arrival)
    (l : list call) (ticks : list (list arrival * Z)) :
  for_packets s arrivals = Run l (inr (Some s')) ->
  while_true s ((arrivals, ord_q) :: ticks) = Run (l ++ [refresh Stdscr]) (inr None)
  /\ (forall key, key <> ord_q ->
        while_true s ((arrivals, key) :: ticks)
        = Run (l ++ refresh Stdscr :: log (while_true s' ticks))
              (outcome (while_true s' ticks)))
  /\ (forall key, key <> ord_q ->
        while_true s' (([], key) :: ticks)
        = Run (refresh Stdscr :: log (while_true s' ticks))
              (outcome (while_true s' ticks))).
Proof.
  intros Hbatch. split_and!.
  - cbn [while_true]. rewrite Hbatch, bind_run, bind_emit. reflexivity.
  - intros key Hkey. cbn [while_true]. rewrite Hbatch, bind_run, bind_emit.
    apply Z.eqb_neq in Hkey. rewrite Hkey. reflexivity.
  - intros key Hkey. cbn [while_true for_packets]. rewrite ret_bind, bind_emit.
    apply Z.eqb_neq in Hkey. rewrite Hkey. reflexivity.
Qed.

Lemma quit_key_after_one_packet :
  for_packets initial_state [Arrival (24, 80) 0 (sample_motion 3 1)]
  = Run [] (inr (Some initial_state))
  /\ while_true initial_state
       (([Arrival (24, 80) 0 (sample_motion 3 1)], ord_q)
        :: [([Arrival (24, 80) 6 (sample_telemetry 0)], 0)])
     = Run ([] ++ [refresh Stdscr]) (inr None).
Proof.
  assert (for_packets initial_state [Arrival (24, 80) 0 (sample_motion 3 1)]
          = Run [] (inr (Some initial_state))) as Hbatch by reflexivity.
  split; [exact Hbatch|].
  apply (quit_key_ends_the_loop initial_state initial_state _ [] _ Hbatch).
Defined.

Lemma ingest_telemetry_some (s s' : State) (p : Packet) (o : option Data) :
  ingest s 6 p = inr (s', o) -> o = Some (data s').
Proof.
  unfold ingest. cbn [Z.eqb Pos.eqb].
  destruct (car_telemetry s p) as [e|s1]; [done|]. by intros [= <- <-].
Qed.

Lemma for_body_ends (s : State) (a : arrival) :
  outcome (for_body s a) = inr None -> packet_id a = 6 /\ too_small a.
Proof.
  intros Hend.
  destruct (for_body_cases s a)
    as [(e & _ & Hb)|[(s' & _ & Hb)|(s' & d & Hi & Hb)]];
    rewrite Hb in Hend; [done..|].
  apply ingest_snapshot in Hi as (Hid & _ & _). split; [done|].
  rewrite outcome_bind in Hend. unfold too_small.
  destruct (screen a) as [h w]. cbn [fst snd].
  destruct (Z.lt_ge_cases w 75) as [|Hw]; [by left|].
  destruct (Z.lt_ge_cases h 15) as [|Hh]; [by right|].
  pose proof (outcome_telemetry_box_large h w d Hw Hh) as Hlarge.
  destruct (outcome (draw_telemetry_box (Window Stdscr (h, w)) d)) as [e|[|]];
    done.
Qed.

Lemma for_packets_ends (l : list arrival) (s : State) :
  outcome (for_packets s l) = inr None ->
  Exists (fun a => packet_id a = 6 /\ too_small a) l.
Proof.
  revert s. induction l as [|a l IH]; intros s Hend; [done|].
  cbn [for_packets] in Hend. rewrite outcome_bind in Hend.
  destruct (outcome (for_body s a)) as [e|[s'|]] eqn:Hbody; [done| |].
  - right. by apply (IH s').
  - left. by apply (for_body_ends s).
Qed.

(** X11. The loop of [print_telemetry] never ends for want of events: when
    it returns, either the key read at the end of some tick was [q], or some
    tick had a telemetry item (kind 6) that came while the terminal was less
    than 75 wide or less than 15 high. *)
Theorem loop_ends_only_on_quit_or_small_terminal
    (ticks : list (list arrival * Z)) (s : State) :
  outcome (while_true s ticks) = inr None ->
  Exists (fun tick => tick.2 = ord_q
                      \/ Exists (fun a => packet_id a = 6 /\ too_small a) tick.1)
         ticks.
Proof.
  revert s. induction ticks as [|[arrivals key] ticks IH]; intros s Hend; [done|].
  cbn [while_true] in Hend. rewrite outcome_bind in Hend.
  destruct (outcome (for_packets s arrivals)) as [e|[s'|]] eqn:Hbatch; [done| |].
  - rewrite outcome_bind in Hend. cbn [emit outcome] in Hend.
    destruct (Z.eqb_spec key ord_q) as [->|Hkey].
    + left. by left.
    + right. by apply (IH s').
  - left. right. by apply (for_packets_ends arrivals s).
Qed.

Lemma loop_ends_on_quit_sample :
  outcome (while_true initial_state
             [([Arrival (24, 80) 0 (sample_motion 3 1)], 0);
              ([Arrival (24, 80) 6 (sample_telemetry 0)], ord_q);
              ([], 0)]) = inr None
  /\ Exists (fun tick => tick.2 = ord_q
                         \/ Exists (fun a => packet_id a = 6 /\ too_small a) tick.1)
            [([Arrival (24, 80) 0 (sample_motion 3 1)], 0);
             ([Arrival (24, 80) 6 (sample_telemetry 0)], ord_q);
             ([], 0)].
Proof.
  assert (outcome (while_true initial_state
             [([Arrival (24, 80) 0 (sample_motion 3 1)], 0);
              ([Arrival (24, 80) 6 (sample_telemetry 0)], ord_q);
              ([], 0)]) = inr None) as Hend by (vm_compute; reflexivity).
  split; [exact Hend|].
  apply (loop_ends_only_on_quit_or_small_terminal _ initial_state Hend).
Defined.

Lemma renders_skip (a : arrival) (l : list arrival) (ds : list Data) :
  packet_id a <> 6 -> renders (a :: l) ds = renders l ds.
Proof.
  intros Hid. unfold renders, is_telemetry. cbn [List.filter].
  by destruct (Z.eqb_spec (packet_id a) 6).
Qed.

Lemma renders_cons (a : arrival) (l : list arrival) (d : Data) (ds : list Data) :
  packet_id a = 6 ->
  renders (a :: l) (d :: ds)
  = log (draw_telemetry_box (Window Stdscr (screen a)) d) ++ renders l ds.
Proof.
  intros Hid. unfold renders, is_telemetry. cbn [List.filter]. by rewrite Hid.
Qed.

Lemma ingest_all_cons_event (s : State) (a : arrival) (l : list arrival) :
  ingest_all s (map event_of (a :: l))
  = r ← ingest s (packet_id a) (packet a);
    r' ← ingest_all r.1 (map event_of l);
    mret (r'.1, option_list r.2 ++ r'.2).
Proof. reflexivity. Qed.

(** X12. Drawing never changes what the loop remembers: when the [for] loop
    over a batch runs to its end, the state it leaves is the one the
    aggregation alone computes from the items, there is one snapshot for
    each telemetry item, and the calls on the terminal are the panels of
    these snapshots, one after the other, and nothing else. *)
Theorem for_packets_follows_ingest_all (l : list arrival) (s s' : State) :
  outcome (for_packets s l) = inr (Some s') ->
  exists ds,
    ingest_all s (map event_of l) = inr (s', ds)
    /\ length ds = length (List.filter is_telemetry l)
    /\ log (for_packets s l) = renders l ds.
Proof.
  revert s. induction l as [|a l IH]; intros s Hout.
  { injection Hout as <-. by exists []. }
  cbn [for_packets] in Hout |- *. rewrite outcome_bind in Hout.
  rewrite log_bind. setoid_rewrite ingest_all_cons_event.
  destruct (for_body_cases s a)
    as [(e & _ & Hb)|[(s1 & Hi & Hb)|(s1 & d & Hi & Hb)]];
    rewrite Hb in Hout |- *; [done| |].
  - cbn [log outcome app] in Hout |- *.
    destruct (IH s1 Hout) as (ds & Hall & Hlen & Hlog). exists ds.
    assert (packet_id a <> 6) as Hid.
    { intros Hid. rewrite Hid in Hi. by apply ingest_telemetry_some in Hi. }
    rewrite Hi. cbn [mbind exn_bind fst snd]. rewrite Hall.
    split_and!; [done| |by rewrite renders_skip].
    unfold is_telemetry. cbn [List.filter].
    by destruct (Z.eqb_spec (packet_id a) 6).
  - rewrite outcome_bind in Hout. rewrite log_bind, outcome_bind.
    pose proof Hi as Hi'. apply ingest_snapshot in Hi' as (Hid & _ & _).
    destruct (outcome (draw_telemetry_box (Window Stdscr (screen a)) d))
      as [e|[|]]; [done| |done].
    cbn [log outcome mret M_ret] in Hout |- *.
    destruct (IH s1 Hout) as (ds & Hall & Hlen & Hlog). exists (d :: ds).
    rewrite Hi. cbn [mbind exn_bind fst snd]. rewrite Hall.
    split_and!; [done| |].
    + unfold is_telemetry. cbn [List.filter]. rewrite Hid. cbn. by rewrite Hlen.
    + rewrite renders_cons, app_nil_r, Hlog by done. reflexivity.
Qed.

Lemma for_packets_follows_ingest_all_sample :
  outcome (for_packets initial_state
             [Arrival (24, 80) 6 (sample_telemetry 0);
              Arrival (24, 80) 5 (sample_setup 42 7);
              Arrival (30, 100) 6 (sample_telemetry 0)])
  = inr (Some fuelled)
  /\ exists ds,
       ingest_all initial_state
         (map event_of [Arrival (24, 80) 6 (sample_telemetry 0);
                        Arrival (24, 80) 5 (sample_setup 42 7);
                        Arrival (30, 100) 6 (sample_telemetry 0)])
       = inr (fuelled, ds)
       /\ length ds = 2%nat
       /\ log (for_packets initial_state
                 [Arrival (24, 80) 6 (sample_telemetry 0);
                  Arrival (24, 80) 5 (sample_setup 42 7);
                  Arrival (30, 100) 6 (sample_telemetry 0)])
          = renders [Arrival (24, 80) 6 (sample_telemetry 0);
                     Arrival (24, 80) 5 (sample_setup 42 7);
                     Arrival (30, 100) 6 (sample_telemetry 0)] ds.
Proof.
  assert (outcome (for_packets initial_state
             [Arrival (24, 80) 6 (sample_telemetry 0);
              Arrival (24, 80) 5 (sample_setup 42 7);
              Arrival (30, 100) 6 (sample_telemetry 0)])
          = inr (Some fuelled)) as Hout by (vm_compute; reflexivity).
  split; [exact Hout|].
  apply (for_packets_follows_ingest_all _ initial_state fuelled Hout).
Defined.

(** * Further properties of the aggregation *)

Lemma ingest_cases (s s' : State) (id : Z) (p : Packet) (o : option Data) :
  ingest s id p = inr (s', o) ->
  (id = 6 /\ car_telemetry s p = inr s')
  \/ (id = 0 /\ motion s p = inr s')
  \/ (id = 7 /\ car_status s p = inr s')
  \/ (id = 5 /\ car_setup s p = inr s')
  \/ s' = s.
Proof.
  unfold ingest.
  destruct (Z.eqb_spec id 6) as [->|_].
  { destruct (car_telemetry s p) as [e|s1]; [done|]. intros [= <- <-]. by left. }
  destruct (Z.eqb_spec id 0) as [->|_].
  { destruct (motion s p) as [e|s1]; [done|]. intros [= <- <-]. right. by left. }
  destruct (Z.eqb_spec id 7) as [->|_].
  { destruct (car_status s p) as [e|s1]; [done|]. intros [= <- <-].
    right. right. by left. }
  destruct (Z.eqb_spec id 5) as [->|_].
  { destruct (car_setup s p) as [e|s1]; [done|]. intros [= <- <-].
    right. right. right. by left. }
  intros [= <- <-]. by repeat right.
Qed.

Lemma motion_cases (s s' : State) (p : Packet) :
  motion s p = inr s' ->
  s' = s \/ exists idx m, player_car_index s = Some idx /\ s' = with_motion s idx m.
Proof.
  unfold motion, with_motion. destruct (player_car_index s) as [idx|] eqn:Hidx.
  - destruct (cars_motion_data p) as [e|cars]; [done|]. cbn [mbind exn_bind].
    destruct (getitem cars idx) as [e|m]; [done|]. intros [= <-].
    right. by exists idx, m.
  - intros [= <-]. by left.
Qed.

Lemma car_status_cases (s s' : State) (p : Packet) :
  car_status s p = inr s' ->
  s' = s \/ exists idx c cars, player_car_index s = Some idx
                               /\ cars_status_data p = inr cars
                               /\ cars !! idx = Some c
                               /\ s' = with_status s idx c.
Proof.
  unfold car_status, with_status. destruct (player_car_index s) as [idx|] eqn:Hidx.
  - destruct (cars_status_data p) as [e|cars]; [done|]. cbn [mbind exn_bind].
    unfold getitem. destruct (cars !! idx) as [c|] eqn:Hc; [|done]. intros [= <-].
    right. by exists idx, c, cars.
  - intros [= <-]. by left.
Qed.

Lemma car_setup_cases (s s' : State) (p : Packet) :
  car_setup s p = inr s' ->
  s' = s \/ exists idx c, player_car_index s = Some idx /\ s' = with_setup s idx c.
Proof.
  unfold car_setup, with_setup. destruct (player_car_index s) as [idx|] eqn:Hidx.
  - destruct (cars_setup_data p) as [e|cars]; [done|]. cbn [mbind exn_bind].
    destruct (getitem cars idx) as [e|c]; [done|]. intros [= <-].
    right. by exists idx, c.
  - intros [= <-]. by left.
Qed.

Lemma is_Some_insert_keeps {V} (m : gmap nat V) (i j : nat) (v : V) :
  is_Some (m !! j) -> is_Some (<[i := v]> m !! j).
Proof.
  intros Hj. destruct (decide (i = j)) as [->|Hne].
  - rewrite lookup_insert_eq. by eexists.
  - by rewrite lookup_insert_ne.
Qed.

Lemma is_Some_insert_new {V} (m : gmap nat V) (i j : nat) (v : V) :
  is_Some (<[i := v]> m !! j) -> is_Some (m !! j) \/ i = j.
Proof.
  intros Hj. destruct (decide (i = j)) as [->|Hne]; [by right|].
  left. by rewrite lookup_insert_ne in Hj.
Qed.

Lemma ingest_keeps_entries (s s' : State) (id : Z) (p : Packet) (o : option Data)
    (j : nat) :
  ingest s id p = inr (s', o) ->
  (is_Some (motion_data s !! j) -> is_Some (motion_data s' !! j))
  /\ (is_Some (status_data s !! j) -> is_Some (status_data s' !! j))
  /\ (is_Some (car_setup_data s !! j) -> is_Some (car_setup_data s' !! j)).
Proof.
  intros Hrun.
  destruct (ingest_cases _ _ _ _ _ Hrun)
    as [[_ H]|[[_ H]|[[_ H]|[[_ H]| ->]]]]; [| | | |done].
  - apply car_telemetry_caches in H as (-> & -> & ->). done.
  - apply motion_cases in H as [->|(idx & m & _ & ->)]; [done|].
    cbn [with_motion motion_data status_data car_setup_data].
    split_and!; [apply is_Some_insert_keeps|done..].
  - apply car_status_cases in H as [->|(idx & c & cars & _ & _ & _ & ->)]; [done|].
    cbn [with_status motion_data status_data car_setup_data].
    split_and!; [done|apply is_Some_insert_keeps|done].
  - apply car_setup_cases in H as [->|(idx & c & _ & ->)]; [done|].
    cbn [with_setup motion_data status_data car_setup_data].
    split_and!; [done..|apply is_Some_insert_keeps].
Qed.

(** X13. The three caches never lose an entry: whatever items are taken in,
    a car that has an entry in the motion, status or setup cache still has
    one in that cache afterwards. *)
Theorem caches_never_evict (evs : list (Z * Packet)) (s s' : State)
    (ds : list Data) (j : nat) :
  ingest_all s evs = inr (s', ds) ->
  (is_Some (motion_data s !! j) -> is_Some (motion_data s' !! j))
  /\ (is_Some (status_data s !! j) -> is_Some (status_data s' !! j))
  /\ (is_Some (car_setup_data s !! j) -> is_Some (car_setup_data s' !! j)).
Proof.
  revert s ds. induction evs as [|ev evs IH]; intros s ds Hrun.
  { by injection Hrun as <- <-. }
  apply ingest_all_cons_inv in Hrun as (s1 & o & l1 & H1 & Hrest & ->).
  destruct (ingest_keeps_entries _ _ _ _ _ j H1) as (Hm & Hs & Hc).
  destruct (IH _ _ Hrest) as (Hm' & Hs' & Hc'). split_and!; auto.
Qed.

Lemma caches_never_evict_sample :
  ingest_all fuelled [(0, sample_motion 3 1); (6, sample_telemetry 1);
                      (5, sample_setup 10 20); (99, sample_status)]
  = inr (state_of (ingest_all fuelled
                     [(0, sample_motion 3 1); (6, sample_telemetry 1);
                      (5, sample_setup 10 20); (99, sample_status)]),
         snapshots (ingest_all fuelled
                     [(0, sample_motion 3 1); (6, sample_telemetry 1);
                      (5, sample_setup 10 20); (99, sample_status)]))
  /\ is_Some (car_setup_data fuelled !! 0%nat)
  /\ is_Some (car_setup_data
                (state_of (ingest_all fuelled
                     [(0, sample_motion 3 1); (6, sample_telemetry 1);
                      (5, sample_setup 10 20); (99, sample_status)])) !! 0%nat).
Proof.
  assert (ingest_all fuelled [(0, sample_motion 3 1); (6, sample_telemetry 1);
                      (5, sample_setup 10 20); (99, sample_status)]
  = inr (state_of (ingest_all fuelled
                     [(0, sample_motion 3 1); (6, sample_telemetry 1);
                      (5, sample_setup 10 20); (99, sample_status)]),
         snapshots (ingest_all fuelled
                     [(0, sample_motion 3 1); (6, sample_telemetry 1);
                      (5, sample_setup 10 20); (99, sample_status)])))
    as Hrun by (vm_compute; reflexivity).
  assert (is_Some (car_setup_data fuelled !! 0%nat)) as Hin
    by (vm_compute; eexists; reflexivity).
  split_and!; [exact Hrun|exact Hin|].
  exact (proj2 (proj2 (caches_never_evict _ _ _ _ 0%nat Hrun)) Hin).
Defined.

Lemma ingest_caches_tracked (s s' : State) (id : Z) (p : Packet) (o : option Data)
    (j : nat) :
  ingest s id p = inr (s', o) ->
  cached s' j -> cached s j \/ player_car_index s = Some j.
Proof.
  intros Hrun. unfold cached.
  destruct (ingest_cases _ _ _ _ _ Hrun)
    as [[_ H]|[[_ H]|[[_ H]|[[_ H]| ->]]]]; [| | | |by left].
  - apply car_telemetry_caches in H as (-> & -> & ->). by left.
  - apply motion_cases in H as [->|(idx & m & Hidx & ->)]; [by left|].
    cbn [with_motion motion_data status_data car_setup_data].
    intros [Hj|Hj]; [|left; by right].
    apply is_Some_insert_new in Hj as [Hj| ->]; [left; by left|by right].
  - apply car_status_cases in H as [->|(idx & c & cars & Hidx & _ & _ & ->)];
      [by left|].
    cbn [with_status motion_data status_data car_setup_data].
    intros [Hj|[Hj|Hj]]; [left; by left| |left; right; by right].
    apply is_Some_insert_new in Hj as [Hj| ->]; [left; right; by left|by right].
  - apply car_setup_cases in H as [->|(idx & c & Hidx & ->)]; [by left|].
    cbn [with_setup motion_data status_data car_setup_data].
    intros [Hj|[Hj|Hj]]; [left; by left|left; right; by left|].
    apply is_Some_insert_new in Hj as [Hj| ->]; [left; right; by right|by right].
Qed.

Lemma ingest_tracks_header (s s' : State) (id : Z) (p : Packet) (o : option Data)
    (j : nat) :
  ingest s id p = inr (s', o) ->
  player_car_index s' = Some j ->
  player_car_index s = Some j \/ (id = 6 /\ m_playerCarIndex (header p) = j).
Proof.
  intros Hrun Hj. destruct (Z.eq_dec id 6) as [->|Hid].
  - right. split; [done|]. unfold ingest in Hrun. cbn [Z.eqb Pos.eqb] in Hrun.
    unfold car_telemetry in Hrun.
    destruct (cars_telemetry_data p) as [e|cars]; [done|].
    cbn [mbind exn_bind] in Hrun.
    destruct (getitem cars _) as [e|t]; [done|].
    cbn [mbind exn_bind mret exn_ret] in Hrun. injection Hrun as <- <-.
    cbn [player_car_index] in Hj. by injection Hj.
  - left. apply (ingest_not_telemetry _ _ _ _ _ Hid) in Hrun as (_ & _ & Hsame).
    by rewrite <- Hsame.
Qed.

Lemma ingest_all_caches_tracked (evs : list (Z * Packet)) (s s' : State)
    (ds : list Data) (j : nat) :
  ingest_all s evs = inr (s', ds) ->
  cached s' j \/ player_car_index s' = Some j ->
  cached s j \/ player_car_index s = Some j
  \/ exists p, (6, p) ∈ evs /\ m_playerCarIndex (header p) = j.
Proof.
  revert s ds. induction evs as [|[id p] evs IH]; intros s ds Hrun Hj.
  { injection Hrun as <- <-. destruct Hj; auto. }
  apply ingest_all_cons_inv in Hrun as (s1 & o & l1 & H1 & Hrest & ->).
  cbn [fst snd] in H1.
  destruct (IH _ _ Hrest Hj) as [Hc|[Hi|(q & Hq & Hidx)]].
  - destruct (ingest_caches_tracked _ _ _ _ _ j H1 Hc); auto.
  - destruct (ingest_tracks_header _ _ _ _ _ j H1 Hi) as [|[-> Hidx]]; [auto|].
    right. right. exists p. split; [left|done].
  - right. right. exists q. split; [by right|done].
Qed.

(** X14. From the start of [print_telemetry], a car gets an entry in the
    motion, status or setup cache only if the header of some telemetry item
    (kind 6) has named it as the player's car: the entries of the other cars
    of a packet are never stored. *)
Theorem only_tracked_cars_are_cached (evs : list (Z * Packet)) (s' : State)
    (ds : list Data) (j : nat) :
  ingest_all initial_state evs = inr (s', ds) ->
  cached s' j ->
  exists p, (6, p) ∈ evs /\ m_playerCarIndex (header p) = j.
Proof.
  intros Hrun Hj.
  destruct (ingest_all_caches_tracked _ _ _ _ j Hrun (or_introl Hj))
    as [Hc|[Hi|Hp]]; [|done|done].
  destruct Hc as [Hc|[Hc|Hc]]; cbn in Hc; rewrite lookup_empty in Hc;
    by destruct Hc.
Qed.

Lemma only_tracked_cars_are_cached_sample :
  ingest_all initial_state [(6, sample_telemetry 0); (5, sample_setup 42 7)]
  = inr (fuelled_before,
         snapshots (ingest_all initial_state
                      [(6, sample_telemetry 0); (5, sample_setup 42 7)]))
  /\ cached fuelled_before 0
  /\ exists p, (6, p) ∈ [(6, sample_telemetry 0); (5, sample_setup 42 7)]
               /\ m_playerCarIndex (header p) = 0%nat.
Proof.
  assert (ingest_all initial_state [(6, sample_telemetry 0); (5, sample_setup 42 7)]
          = inr (fuelled_before,
                 snapshots (ingest_all initial_state
                              [(6, sample_telemetry 0); (5, sample_setup 42 7)])))
    as Hrun by (vm_compute; reflexivity).
  assert (cached fuelled_before 0) as Hin.
  { right. right. vm_compute. eexists. reflexivity. }
  split_and!; [exact Hrun|exact Hin|].
  exact (only_tracked_cars_are_cached _ _ _ 0%nat Hrun Hin).
Defined.

(** * Exceptions *)

Lemma ingest_error (s : State) (id : Z) (p : Packet) (e : exn) :
  ingest s id p = inl e -> e = AttributeError \/ e = IndexError.
Proof.
  unfold ingest, car_telemetry, motion, car_status, car_setup, getitem,
    cars_telemetry_data, cars_motion_data, cars_status_data, cars_setup_data.
  unfold mbind, exn_bind, mret, exn_ret. intros H.
  repeat (case_match; simplify_eq/=); auto.
Qed.

Lemma for_body_raises (s : State) (a : arrival) (e : exn) :
  ingest s (packet_id a) (packet a) = inl e -> for_body s a = Run [] (inl e).
Proof. intros Hi. unfold for_body. by rewrite Hi. Qed.

(** X15. An item that the aggregation cannot read stops everything: when
    reading it raises, the exception is an [AttributeError] (the packet has
    not the array its kind announces) or an [IndexError] (the tracked index
    is beyond the array), nothing is drawn for the item, the items after it
    and the later ticks are not looked at, the screen is not refreshed and
    no key is read: the exception leaves [print_telemetry] with the log as
    it was before the item. *)
Theorem failing_item_stops_everything (s s1 : State) (l1 l2 : list arrival)
    (a : arrival) (lg : list call) (e : exn) (key : Z)
    (ticks : list (list arrival * Z)) :
  for_packets s l1 = Run lg (inr (Some s1)) ->
  ingest s1 (packet_id a) (packet a) = inl e ->
  (e = AttributeError \/ e = IndexError)
  /\ for_packets s (l1 ++ a :: l2) = Run lg (inl e)
  /\ while_true s ((l1 ++ a :: l2, key) :: ticks) = Run lg (inl e).
Proof.
  intros Hbefore Hi.
  assert (for_packets s (l1 ++ a :: l2) = Run lg (inl e)) as Hbatch.
  { rewrite for_packets_app, Hbefore, bind_run. cbn [for_packets].
    rewrite (for_body_raises s1 a e Hi). cbn. by rewrite app_nil_r. }
  split_and!; [exact (ingest_error _ _ _ _ Hi)|exact Hbatch|].
  cbn [while_true]. by rewrite Hbatch.
Qed.

Lemma failing_item_sample :
  for_packets initial_state [Arrival (24, 80) 0 (sample_motion 3 1)]
  = Run [] (inr (Some initial_state))
  /\ ingest initial_state 6
       (PacketCarTelemetryData {| m_playerCarIndex := 5 |} [car0; car1])
     = inl IndexError
  /\ (IndexError = AttributeError \/ IndexError = IndexError)
  /\ for_packets initial_state
       ([Arrival (24, 80) 0 (sample_motion 3 1)]
        ++ Arrival (24, 80) 6
             (PacketCarTelemetryData {| m_playerCarIndex := 5 |} [car0; car1])
        :: [Arrival (24, 80) 6 (sample_telemetry 0)])
     = Run [] (inl IndexError)
  /\ while_true initial_state
       (([Arrival (24, 80) 0 (sample_motion 3 1)]
         ++ Arrival (24, 80) 6
              (PacketCarTelemetryData {| m_playerCarIndex := 5 |} [car0; car1])
         :: [Arrival (24, 80) 6 (sample_telemetry 0)], ord_q)
        :: [([Arrival (24, 80) 6 (sample_telemetry 0)], 0)])
     = Run [] (inl IndexError).
Proof.
  assert (for_packets initial_state [Arrival (24, 80) 0 (sample_motion 3 1)]
          = Run [] (inr (Some initial_state))) as Hbefore by reflexivity.
  assert (ingest initial_state 6
            (PacketCarTelemetryData {| m_playerCarIndex := 5 |} [car0; car1])
          = inl IndexError) as Hi by reflexivity.
  split; [exact Hbefore|]. split; [exact Hi|].
  exact (failing_item_stops_everything initial_state initial_state _
           [Arrival (24, 80) 6 (sample_telemetry 0)]
           (Arrival (24, 80) 6
              (PacketCarTelemetryData {| m_playerCarIndex := 5 |} [car0; car1]))
           [] IndexError ord_q
           [([Arrival (24, 80) 6 (sample_telemetry 0)], 0)] Hbefore Hi).
Defined.

Lemma bar_fill_of_zero_division (v scale cells : Z) :
  bar_fill_of v scale cells = inl ZeroDivisionError <-> scale = 0.
Proof.
  unfold bar_fill_of, Py.truediv. destruct (Z.eqb_spec scale 0) as [->|Hne].
  - done.
  - split; [|done]. unfold Py.int. by destruct (Prim2SF _).
Qed.

Lemma never_bind {A B} (e : exn) (m : M A) (k : A -> M B) :
  outcome m <> inl e ->
  (forall a, outcome m = inr a -> outcome (k a) <> inl e) ->
  outcome (m ≫= k) <> inl e.
Proof.
  intros Hm Hk. rewrite outcome_bind.
  destruct (outcome m) as [e'|a] eqn:Hout; [|by apply Hk].
  intros [= ->]. by destruct Hm.
Qed.

Lemma never_for_each {A} (e : exn) (l : list A) (body : A -> M unit) :
  (forall a, outcome (body a) <> inl e) ->
  outcome (for_each l body) <> inl e.
Proof.
  intros Hbody. induction l as [|a l IH]; [done|].
  cbn [for_each]. apply never_bind; [apply Hbody|]. by intros _ _.
Qed.

Lemma never_lift_getitem {A} (l : list A) (i : nat) :
  outcome (lift (getitem l i)) <> inl ZeroDivisionError.
Proof. unfold getitem, lift. by destruct (l !! i). Qed.

Lemma rpm_bar_zero_division (w : window) (y x rpm max_rpm : Z) :
  outcome (draw_rpm_bar w y x rpm max_rpm) = inl ZeroDivisionError
  <-> max_rpm = 0.
Proof.
  split.
  - intros Hout. apply (bar_fill_of_zero_division rpm max_rpm 30).
    destruct (bar_fill_of rpm max_rpm 30) as [e|fill] eqn:Hfill.
    + unfold draw_rpm_bar, lift in Hout. rewrite Hfill, bind_raise in Hout.
      cbn [outcome] in Hout. by injection Hout as ->.
    + by rewrite (draw_rpm_bar_run w y x rpm max_rpm fill Hfill) in Hout.
  - intros ->. reflexivity.
Qed.

Lemma accel_bar_no_zero_division (w : window) (y x throttle : Z) :
  outcome (draw_accel_bar w y x throttle) <> inl ZeroDivisionError.
Proof.
  destruct (bar_fill_of throttle 100 10) as [e|fill] eqn:Hfill.
  - unfold draw_accel_bar, lift. rewrite Hfill. cbn. intros [= ->].
    by apply bar_fill_of_zero_division in Hfill.
  - by rewrite (runs_accel_bar w y x throttle fill Hfill).
Qed.

Lemma brake_bar_no_zero_division (w : window) (y x brake : Z) :
  outcome (draw_brake_bar w y x brake) <> inl ZeroDivisionError.
Proof.
  destruct (bar_fill_of brake 100 10) as [e|fill] eqn:Hfill.
  - unfold draw_brake_bar, lift. rewrite Hfill. cbn. intros [= ->].
    by apply bar_fill_of_zero_division in Hfill.
  - by rewrite (runs_brake_bar w y x brake fill Hfill).
Qed.

Lemma telemetry_box_no_zero_division (h w : Z) (d : Data) :
  max_rpm d <> Some 0 ->
  outcome (draw_telemetry_box (Window Stdscr (h, w)) d) <> inl ZeroDivisionError.
Proof.
  intros Hmax. unfold draw_telemetry_box. cbn [win getmaxyx].
  apply never_bind; [done|]. intros _ _.
  destruct ((w <? 75) || (h <? 15)); [done|].
  apply never_bind; [done|]. intros telemetry_win _.
  apply never_bind; [done|]. intros _ _.
  apply never_bind; [done|]. intros _ _.
  apply never_bind; [done|]. intros _ _.
  apply never_bind.
  { rewrite rpm_bar_zero_division. destruct (max_rpm d) as [m|]; cbn; [|done].
    intros ->. done. }
  intros _ _.
  apply never_bind; [done|]. intros _ _.
  apply never_bind; [done|]. intros _ _.
  apply never_bind.
  { apply never_for_each. intros [i temp].
    apply never_bind; [apply never_lift_getitem|]. by intros label _. }
  intros _ _. apply never_bind.
  { apply never_for_each. intros [i damage].
    apply never_bind; [apply never_lift_getitem|]. by intros label _. }
  intros _ _.
  apply never_bind; [apply accel_bar_no_zero_division|]. intros _ _.
  apply never_bind; [apply brake_bar_no_zero_division|]. intros _ _.
  apply never_bind; [done|]. by intros _ _.
Qed.

(** X16. [draw_telemetry_box] raises [ZeroDivisionError] exactly when the
    terminal has room for the panel and the snapshot has a [max_rpm] of 0.
    It then stops in [draw_rpm_bar], before the gauge writes anything: the
    panel has its border and the speed and gear lines, and is never
    refreshed. *)
Theorem telemetry_box_zero_division_iff (h w : Z) (d : Data) :
  (outcome (draw_telemetry_box (Window Stdscr (h, w)) d) = inl ZeroDivisionError
   <-> 75 <= w /\ 15 <= h /\ max_rpm d = Some 0)
  /\ (75 <= w /\ 15 <= h /\ max_rpm d = Some 0 ->
      draw_telemetry_box (Window Stdscr (h, w)) d
      = Run [clear Stdscr; newwin 15 75 1 2; box TelemetryWin;
             addstr TelemetryWin 1 2
               [Lit "Speed: "; Fmt (NInt (default 0 (engine_speed d))); Lit " km/h"]
               (color_pair 1);
             addstr TelemetryWin 2 2
               [Lit "Gear: "; Fmt (NInt (default 0 (gear d)))] (color_pair 1)]
            (inl ZeroDivisionError)).
Proof.
  assert (75 <= w /\ 15 <= h /\ max_rpm d = Some 0 ->
      draw_telemetry_box (Window Stdscr (h, w)) d
      = Run [clear Stdscr; newwin 15 75 1 2; box TelemetryWin;
             addstr TelemetryWin 1 2
               [Lit "Speed: "; Fmt (NInt (default 0 (engine_speed d))); Lit " km/h"]
               (color_pair 1);
             addstr TelemetryWin 2 2
               [Lit "Gear: "; Fmt (NInt (default 0 (gear d)))] (color_pair 1)]
            (inl ZeroDivisionError)) as Hzero.
  { intros (Hw & Hh & Hmax). unfold draw_telemetry_box. cbn [win getmaxyx].
    assert ((w <? 75) || (h <? 15) = false) as -> by lia.
    rewrite Hmax. reflexivity. }
  split; [|exact Hzero]. split.
  - intros Hout. destruct (Z.lt_ge_cases w 75) as [Hw|Hw].
    { by rewrite (draw_telemetry_box_small h w d (or_introl Hw)) in Hout. }
    destruct (Z.lt_ge_cases h 15) as [Hh|Hh].
    { by rewrite (draw_telemetry_box_small h w d (or_intror Hh)) in Hout. }
    split_and!; [done..|].
    destruct (decide (max_rpm d = Some 0)) as [|Hne]; [done|].
    by destruct (telemetry_box_no_zero_division h w d Hne).
  - intros H. by rewrite (Hzero H).
Qed.

Lemma telemetry_box_zero_division_sample :
  (75 <= 80 /\ 15 <= 24
   /\ max_rpm (mkData None (Some 9000) None (Some 0) None None None None None None)
      = Some 0)
  /\ outcome (draw_telemetry_box (Window Stdscr (24, 80))
                (mkData None (Some 9000) None (Some 0) None None None None None None))
     = inl ZeroDivisionError.
Proof.
  assert (75 <= 80 /\ 15 <= 24
   /\ max_rpm (mkData None (Some 9000) None (Some 0) None None None None None None)
      = Some 0) as H by (split_and!; [lia|lia|reflexivity]).
  split; [exact H|].
  exact (proj2 (proj1 (telemetry_box_zero_division_iff 24 80 _)) H).
Defined.

Lemma car_telemetry_max_rpm (s s' : State) (p : Packet) :
  car_telemetry s p = inr s' -> max_rpm (data s') = Some 15000.
Proof.
  unfold car_telemetry. destruct (cars_telemetry_data p) as [e|cars]; [done|].
  cbn [mbind exn_bind]. destruct (getitem cars _) as [e|t]; [done|].
  cbn [mbind exn_bind mret exn_ret]. intros [= <-]. cbn [data]. unfold if_in.
  by destruct (motion_data s !! _), (status_data s !! _), (car_setup_data s !! _).
Qed.

Lemma for_body_no_zero_division (s : State) (a : arrival) :
  outcome (for_body s a) <> inl ZeroDivisionError.
Proof.
  destruct (for_body_cases s a)
    as [(e & Hi & ->)|[(s' & _ & ->)|(s' & d & Hi & ->)]]; [|done|].
  - cbn. intros [= ->]. by destruct (ingest_error _ _ _ _ Hi).
  - apply ingest_snapshot in Hi as (_ & -> & Hs').
    destruct (screen a) as [h w]. apply never_bind; [|by intros [|] _].
    apply telemetry_box_no_zero_division.
    by rewrite (car_telemetry_max_rpm _ _ _ Hs').
Qed.

Lemma for_packets_no_zero_division (l : list arrival) (s : State) :
  outcome (for_packets s l) <> inl ZeroDivisionError.
Proof.
  revert s. induction l as [|a l IH]; intros s; [done|].
  cbn [for_packets]. apply never_bind; [apply for_body_no_zero_division|].
  intros [s'|] _; [apply IH|done].
Qed.

Lemma while_true_no_zero_division (ticks : list (list arrival * Z)) (s : State) :
  outcome (while_true s ticks) <> inl ZeroDivisionError.
Proof.
  revert s. induction ticks as [|[arrivals key] ticks IH]; intros s; [done|].
  cbn [while_true]. apply never_bind; [apply for_packets_no_zero_division|].
  intros [s'|] _; [|done]. apply never_bind; [done|]. intros _ _.
  destruct (key =? ord_q); [done|apply IH].
Qed.

(** X17. [print_telemetry] never divides by zero: every snapshot it hands
    to [draw_telemetry_box] has the constant [max_rpm] of 15000, whatever
    the packets hold, so that no trace makes it raise
    [ZeroDivisionError]. *)
Theorem print_telemetry_never_divides_by_zero (ticks : list (list arrival * Z)) :
  outcome (print_telemetry ticks) <> inl ZeroDivisionError
  /\ forall evs s' ds,
       ingest_all initial_state evs = inr (s', ds) ->
       Forall (fun d => max_rpm d = Some 15000) ds.
Proof.
  split.
  - unfold print_telemetry. repeat (apply never_bind; [done|intros _ _]).
    apply while_true_no_zero_division.
  - intros evs. generalize initial_state.
    induction evs as [|ev evs IH]; intros s s' ds Hrun.
    { injection Hrun as <- <-. constructor. }
    apply ingest_all_cons_inv in Hrun as (s1 & o & l1 & H1 & Hrest & ->).
    apply Forall_app. split; [|by apply (IH s1 s')].
    destruct o as [d|]; [|constructor].
    apply ingest_snapshot in H1 as (_ & -> & Hs1). repeat constructor.
    by apply (car_telemetry_max_rpm s _ ev.2).
Qed.

Lemma print_telemetry_never_divides_by_zero_sample :
  outcome (print_telemetry [([Arrival (24, 80) 6 (sample_telemetry 0)], ord_q)])
  <> inl ZeroDivisionError
  /\ ingest_all initial_state [(6, sample_telemetry 0); (5, sample_setup 42 7)]
     = inr (fuelled_before,
            snapshots (ingest_all initial_state
                         [(6, sample_telemetry 0); (5, sample_setup 42 7)]))
  /\ Forall (fun d => max_rpm d = Some 15000)
       (snapshots (ingest_all initial_state
                     [(6, sample_telemetry 0); (5, sample_setup 42 7)])).
Proof.
  assert (ingest_all initial_state [(6, sample_telemetry 0); (5, sample_setup 42 7)]
          = inr (fuelled_before,
                 snapshots (ingest_all initial_state
                              [(6, sample_telemetry 0); (5, sample_setup 42 7)])))
    as Hrun by (vm_compute; reflexivity).
  destruct (print_telemetry_never_divides_by_zero
              [([Arrival (24, 80) 6 (sample_telemetry 0)], ord_q)]) as [Hnever Hmax].
  split_and!; [exact Hnever|exact Hrun|exact (Hmax _ _ _ Hrun)].
Defined.

(** * A well-formed stream *)

Lemma ingest_other (s : State) (id : Z) (p : Packet) :
  id <> 6 -> id <> 0 -> id <> 7 -> id <> 5 -> ingest s id p = inr (s, None).
Proof.
  intros H6 H0 H7 H5. unfold ingest.
  destruct (Z.eqb_spec id 6); [done|]. destruct (Z.eqb_spec id 0); [done|].
  destruct (Z.eqb_spec id 7); [done|]. by destruct (Z.eqb_spec id 5).
Qed.

Lemma state_ok_with_motion (n : nat) (s : State) (idx : nat) (m : CarMotionData) :
  state_ok n s -> state_ok n (with_motion s idx m).
Proof. by intros [Hi Hs]. Qed.

Lemma state_ok_with_setup (n : nat) (s : State) (idx : nat) (c : CarSetupData) :
  state_ok n s -> state_ok n (with_setup s idx c).
Proof. by intros [Hi Hs]. Qed.

Lemma state_ok_with_status (n : nat) (s : State) (idx : nat) (c : CarStatusData) :
  state_ok n s -> fits_status c -> state_ok n (with_status s idx c).
Proof.
  intros [Hi Hs] Hc. split; [done|]. intros j c'. cbn [with_status status_data].
  destruct (decide (idx = j)) as [->|Hne].
  - rewrite lookup_insert_eq. by intros [= <-].
  - rewrite lookup_insert_ne by done. apply Hs.
Qed.

Lemma ingest_well_formed (n : nat) (s : State) (id : Z) (p : Packet) :
  state_ok n s -> well_formed n (id, p) ->
  exists s' o,
    ingest s id p = inr (s', o)
    /\ state_ok n s'
    /\ forall d, o = Some d -> snapshot_ok d.
Proof.
  intros Hok [Hhd Hp]. cbn [fst snd] in Hhd, Hp.
  destruct p as [hd cars|hd cars|hd cars|hd cars|hd]; cbn [header] in Hhd.
  - destruct Hp as (-> & Hlen & Hfits).
    destruct (lookup_lt_is_Some_2 cars (m_playerCarIndex hd)) as [t Ht]; [lia|].
    destruct (Forall_lookup_1 _ _ _ _ Hfits Ht) as (Hrpm & Hthrottle & Hbrake & Htemps).
    destruct (car_telemetry_snapshot s hd cars t Ht) as (s' & Hs' & Hidx & _).
    destruct (car_telemetry_caches _ _ _ Hs') as (_ & Hstatus & _).
    exists s', (Some (data s')). split_and!.
    + by apply ingest_car_telemetry.
    + split.
      * intros idx. rewrite Hidx. by intros [= <-].
      * rewrite Hstatus. apply Hok.
    + intros d [= <-].
      apply (car_telemetry_snapshot_ok s s' hd cars t Ht Hs'); [done..|lia|].
      intros c Hc. destruct Hok as [_ Hwear]. specialize (Hwear _ _ Hc).
      unfold fits_status in Hwear. lia.
  - destruct Hp as (-> & Hlen).
    destruct (player_car_index s) as [idx|] eqn:Hidx.
    + destruct (lookup_lt_is_Some_2 cars idx) as [m Hm].
      { rewrite Hlen. by apply Hok. }
      exists (with_motion s idx m), None. split_and!; [|by apply state_ok_with_motion|done].
      by apply ingest_motion_tracked.
    + exists s, None. split_and!; [|done..]. by apply ingest_untracked.
  - destruct Hp as (-> & Hlen & Hfits).
    destruct (player_car_index s) as [idx|] eqn:Hidx.
    + destruct (lookup_lt_is_Some_2 cars idx) as [c Hc].
      { rewrite Hlen. by apply Hok. }
      exists (with_status s idx c), None. split_and!; [| |done].
      * by apply ingest_status_tracked.
      * apply state_ok_with_status; [done|]. by apply (Forall_lookup_1 _ _ _ _ Hfits Hc).
    + exists s, None. split_and!; [|done..]. by apply ingest_untracked.
  - destruct Hp as (-> & Hlen).
    destruct (player_car_index s) as [idx|] eqn:Hidx.
    + destruct (lookup_lt_is_Some_2 cars idx) as [c Hc].
      { rewrite Hlen. by apply Hok. }
      exists (with_setup s idx c), None. split_and!; [|by apply state_ok_with_setup|done].
      by apply ingest_setup_tracked.
    + exists s, None. split_and!; [|done..]. by apply ingest_untracked.
  - destruct Hp as (H6 & H0 & H7 & H5). exists s, None.
    split_and!; [by apply ingest_other|done..].
Qed.

Lemma for_body_well_formed (n : nat) (s : State) (a : arrival) :
  state_ok n s -> arrival_ok n a ->
  exists lg s', for_body s a = Run lg (inr (Some s')) /\ state_ok n s'.
Proof.
  intros Hok (Hwf & Hw & Hh).
  destruct (ingest_well_formed n s _ _ Hok Hwf) as (s' & o & Hi & Hok' & Hd).
  unfold for_body. rewrite Hi, lift_bind. cbn [fst snd].
  destruct o as [d|].
  - destruct (screen a) as [h w]. cbn [fst snd] in Hw, Hh.
    destruct (runs_telemetry_box_ok h w d Hw Hh (Hd d eq_refl))
      as (f1 & f2 & f3 & Hrun).
    rewrite Hrun, bind_run. by eexists _, s'.
  - by exists [], s'.
Qed.

Lemma for_packets_well_formed (n : nat) (l : list arrival) (s : State) :
  state_ok n s -> Forall (arrival_ok n) l ->
  exists lg s', for_packets s l = Run lg (inr (Some s')) /\ state_ok n s'.
Proof.
  intros Hok Hl. revert s Hok. induction Hl as [|a l Ha _ IH]; intros s Hok.
  { by exists [], s. }
  destruct (for_body_well_formed n s a Hok Ha) as (lg & s1 & Hbody & Hok1).
  destruct (IH s1 Hok1) as (lg' & s' & Hrest & Hok').
  cbn [for_packets]. rewrite Hbody, bind_run, Hrest. by eexists _, s'.
Qed.

Lemma while_true_well_formed (n : nat) (ticks : list (list arrival * Z)) (s : State) :
  state_ok n s -> Forall (fun tick => Forall (arrival_ok n) tick.1) ticks ->
  exists r, outcome (while_true s ticks) = inr r
            /\ (r = None <-> Exists (fun tick => tick.2 = ord_q) ticks).
Proof.
  intros Hok Hticks. revert s Hok.
  induction Hticks as [|[arrivals key] ticks Htick _ IH]; intros s Hok.
  { exists (Some s). split; [done|]. split; [done|]. by intros ?%Exists_nil. }
  destruct (for_packets_well_formed n arrivals s Hok Htick)
    as (lg & s1 & Hbatch & Hok1).
  cbn [while_true]. rewrite Hbatch, bind_run, bind_emit. cbn [log outcome].
  destruct (Z.eqb_spec key ord_q) as [->|Hkey].
  - exists None. split; [done|]. split; [|done]. intros _. by left.
  - destruct (IH s1 Hok1) as (r & Hr & Hiff). exists r. split; [done|].
    rewrite Hiff, Exists_cons. cbn [snd]. tauto.
Qed.

(** X18. On a stream as a decoder for [n] cars makes it (every item has the
    packet its kind announces, with [n] cars, the player's index among them
    and fields within their C types), and as long as the terminal has room
    for the panel, [print_telemetry] raises nothing: it draws every panel
    to the end and returns exactly when the key read after some tick is
    [q]. *)
Theorem well_formed_stream_never_raises (n : nat) (ticks : list (list arrival * Z)) :
  Forall (fun tick => Forall (arrival_ok n) tick.1) ticks ->
  exists r, outcome (print_telemetry ticks) = inr r
            /\ (r = None <-> Exists (fun tick => tick.2 = ord_q) ticks).
Proof.
  intros Hticks.
  assert (state_ok n initial_state) as Hok.
  { split; [done|]. intros j c. cbn. by rewrite lookup_empty. }
  destruct (while_true_well_formed n ticks initial_state Hok Hticks)
    as (r & Hr & Hiff).
  exists r. split; [|done]. unfold print_telemetry. by rewrite !bind_emit.
Qed.

Lemma well_formed_stream_sample :
  Forall (fun tick => Forall (arrival_ok 2) tick.1)
    [([Arrival (24, 80) 0 (sample_motion 3 1);
       Arrival (24, 80) 6 (sample_telemetry 1);
       Arrival (24, 80) 7 sample_status], 0);
     ([Arrival (30, 100) 5 (sample_setup 42 7);
       Arrival (30, 100) 6 (sample_telemetry 0)], ord_q)]
  /\ exists r,
       outcome (print_telemetry
         [([Arrival (24, 80) 0 (sample_motion 3 1);
            Arrival (24, 80) 6 (sample_telemetry 1);
            Arrival (24, 80) 7 sample_status], 0);
          ([Arrival (30, 100) 5 (sample_setup 42 7);
            Arrival (30, 100) 6 (sample_telemetry 0)], ord_q)]) = inr r
       /\ (r = None <->
           Exists (fun tick => tick.2 = ord_q)
             [([Arrival (24, 80) 0 (sample_motion 3 1);
                Arrival (24, 80) 6 (sample_telemetry 1);
                Arrival (24, 80) 7 sample_status], 0);
              ([Arrival (30, 100) 5 (sample_setup 42 7);
                Arrival (30, 100) 6 (sample_telemetry 0)], ord_q)]).
Proof.
  assert (Forall (fun tick => Forall (arrival_ok 2) tick.1)
    [([Arrival (24, 80) 0 (sample_motion 3 1);
       Arrival (24, 80) 6 (sample_telemetry 1);
       Arrival (24, 80) 7 sample_status], 0);
     ([Arrival (30, 100) 5 (sample_setup 42 7);
       Arrival (30, 100) 6 (sample_telemetry 0)], ord_q)]) as Hticks.
  { unfold arrival_ok, well_formed, fits_telemetry, fits_status.
    repeat first [lia | reflexivity | apply Forall_nil
                 | apply Forall_cons; split | split | progress cbn]. }
  split; [exact Hticks|].
  exact (well_formed_stream_never_raises 2 _ Hticks).
Defined.
